(** * housify-ai: the [predict-price] edge function and its caller

    A shallow embedding of the price-estimation code of the repository:

    - the Deno edge function [predict-price] (the [serve] handler and
      [calculateBasePriceFromArea]), and
    - [handleSubmit] of [src/pages/PricePrediction.tsx], the browser-side
      caller that validates the form before invoking the function, and
      [handleAmenityChange] of the same page.

    JavaScript values that reach the handler come out of [JSON.parse]
    (the request body, the body of the chat-completion response and the text
    the model replied with), so they are modelled by the JSON data type
    extended with [undefined].  Exceptions are modelled by an error monad,
    the single remote call by a log of the chat requests sent.

    Conventions of the model:
    - a string is a sequence of 8-bit code units (the Latin-1 range of the
      UTF-16 code units of the engine);
    - a number is [NaN], an infinity or the rational a binary64 number
      stands for, and arithmetic rounds as binary64 does;
    - what the engine provides and the repository does not define
      ([JSON.parse] of a text, the decimal form of a number that is not a
      small integer) is a field of the class [JsRuntime]. *)

From Stdlib Require Import ZArith QArith Qround Qabs Qpower Lia Lqa List Bool.
From Stdlib Require Import Ascii String.
From Stdlib Require Import DecimalString.
From Stdlib Require DecimalPos.
Import ListNotations.

Local Open Scope string_scope.
Local Open Scope Z_scope.

(** ** Strings *)

Module Str.

(** The double quote, which a string literal of this file never holds. *)
Definition dq : string := String (ascii_of_nat 34) EmptyString.

(** The line feed. *)
Definition nl : string := String (ascii_of_nat 10) EmptyString.

(** [quoted s] is [s] between double quotes. *)
Definition quoted (s : string) : string := dq ++ s ++ dq.

(** [unlines ls] joins the lines, each one ended by a line feed. *)
Fixpoint unlines (ls : list string) : string :=
  match ls with
  | [] => ""
  | l :: rest => l ++ nl ++ unlines rest
  end.

Definition is_empty (s : string) : bool :=
  match s with EmptyString => true | String _ _ => false end.

(** [occurs_in needle hay]: [needle] is a substring of [hay]. *)
Fixpoint occurs_in (needle hay : string) : bool :=
  if String.prefix needle hay then true
  else match hay with
       | EmptyString => false
       | String _ hay' => occurs_in needle hay'
       end.

(** The propositional counterpart of [occurs_in]. *)
Definition Infix (needle hay : string) : Prop :=
  exists before after, hay = before ++ needle ++ after.

(** [String.prototype.toLowerCase] on one code unit of the Latin-1 range:
    [A-Z], and the capital letters U+00C0 to U+00DE but the
    multiplication sign U+00D7. *)
Definition lower_ascii (c : ascii) : ascii :=
  let n := nat_of_ascii c in
  if ((65 <=? n) && (n <=? 90))%nat then ascii_of_nat (n + 32)
  else if ((192 <=? n) && (n <=? 222) && negb (n =? 215))%nat
       then ascii_of_nat (n + 32)
  else c.

Fixpoint toLowerCase (s : string) : string :=
  match s with
  | EmptyString => EmptyString
  | String c s' => String (lower_ascii c) (toLowerCase s')
  end.

(** White space and line terminators that [parseInt] skips. *)
Definition is_space (c : ascii) : bool :=
  let n := nat_of_ascii c in
  ((n =? 9) || (n =? 10) || (n =? 11) || (n =? 12) || (n =? 13)
   || (n =? 32) || (n =? 160))%nat.

Fixpoint trim_start (s : string) : string :=
  match s with
  | String c s' => if is_space c then trim_start s' else s
  | EmptyString => EmptyString
  end.

(** Decimal form of an integer, as [Number.prototype.toString] prints
    the integers below 2^53 in absolute value. *)
Definition of_Z (z : Z) : string := NilZero.string_of_int (Z.to_int z).

End Str.

(** ** Numbers *)

(** Rounding of a rational to binary64, to nearest, ties to even: what
    every arithmetic operation of the engine and every decimal literal
    goes through. *)
Module Binary64.

Local Open Scope Q_scope.

(** [exponent q] is the integer [e] with [2^e <= q < 2^(e+1)], for a
    positive [q]. *)
Definition exponent (q : Q) : Z :=
  let e0 := (Z.log2 (Qnum q) - Z.log2 (Zpos (Qden q)))%Z in
  if Qle_bool (2 ^ e0) q then e0 else (e0 - 1)%Z.

(** The unit in the last place of the 53-bit significand; below
    [2^-1022] the numbers are subnormal and spaced by [2^-1074]. *)
Definition ulp (q : Q) : Q := 2 ^ (Z.max (exponent q) (-1022) - 52).

(** The integer nearest to [x], the even one of two equally near. *)
Definition nearest_even (x : Q) : Z :=
  let f := Qfloor x in
  match Qcompare (x - inject_Z f) (1 # 2) with
  | Lt => f
  | Gt => (f + 1)%Z
  | Eq => if Z.even f then f else (f + 1)%Z
  end.

Definition round_pos (q : Q) : Q :=
  inject_Z (nearest_even (q / ulp q)) * ulp q.

Definition round (q : Q) : Q :=
  Qred match Qcompare q 0 with
       | Eq => 0
       | Gt => round_pos q
       | Lt => - round_pos (- q)
       end.

(** The rounded magnitude is beyond the largest finite number. *)
Definition overflows (r : Q) : bool := Qle_bool (2 ^ 1024) (Qabs r).

(** The relative error of [round] on the normal range: [2^-53]. *)
Definition eps : Q := 1 # 9007199254740992.

End Binary64.

(** A number of the engine; the two zeros are not told apart. *)
Inductive number : Type :=
| NaN
| Infinity (negative : bool)
| Num (q : Q).

Module Number.

(** The number nearest to a rational. *)
Definition of_Q (q : Q) : number :=
  let r := Binary64.round q in
  if Binary64.overflows r then Infinity (negb (Qle_bool 0 r)) else Num r.

Definition of_Z (z : Z) : number := of_Q (inject_Z z).

Definition is_zero (q : Q) : bool := Qeq_bool q 0.

Definition is_negative (q : Q) : bool := negb (Qle_bool 0 q).

(** [a * b]. *)
Definition mul (a b : number) : number :=
  match a, b with
  | Num x, Num y => of_Q (x * y)
  | Num x, Infinity s | Infinity s, Num x =>
      if is_zero x then NaN else Infinity (xorb s (is_negative x))
  | Infinity s, Infinity t => Infinity (xorb s t)
  | NaN, _ | _, NaN => NaN
  end.

(** [Math.round]: the nearest integer, a half rounded towards
    positive infinity. *)
Definition round (a : number) : number :=
  match a with
  | NaN => NaN
  | Infinity s => Infinity s
  | Num x => Num (inject_Z (Qfloor (x + (1 # 2))))
  end.

(** [ToBoolean] of a number: zero and [NaN] are falsy. *)
Definition truthy (a : number) : bool :=
  match a with
  | NaN => false
  | Infinity _ => true
  | Num x => negb (is_zero x)
  end.

(** The number is an integer, and which. *)
Definition as_Z (a : number) : option Z :=
  match a with
  | NaN | Infinity _ => None
  | Num x => if Qeq_bool x (inject_Z (Qfloor x)) then Some (Qfloor x) else None
  end.

(** The number is finite and between the two rationals. *)
Definition within (lo hi : Q) (a : number) : Prop :=
  exists q, a = Num q /\ (lo <= q <= hi)%Q.

(** A magnitude far below the overflow threshold and above every
    product the heuristic forms from an area of at most [2^53]. *)
Definition ceiling : Q := 1000000000000000000000000000000.

End Number.

(** ** Values and exceptions *)

(** A value the handler can hold: what [JSON.parse] produces, and
    [undefined] for a property that is not there. *)
#[warnings="-register-all"]
Inductive JsValue : Type :=
| JUndefined
| JNull
| JBool (b : bool)
| JNum (n : number)
| JStr (s : string)
| JArr (items : list JsValue)
| JObj (fields : list (string * JsValue)).

(** Induction on values, through the items of an array and the fields of
    an object. *)
Section JsValue_induction.

Variable P : JsValue -> Prop.
Hypothesis P_undefined : P JUndefined.
Hypothesis P_null : P JNull.
Hypothesis P_bool : forall b, P (JBool b).
Hypothesis P_num : forall n, P (JNum n).
Hypothesis P_str : forall s, P (JStr s).
Hypothesis P_arr : forall items, Forall P items -> P (JArr items).
Hypothesis P_obj :
  forall fields, Forall (fun kv => P (snd kv)) fields -> P (JObj fields).

Fixpoint JsValue_nested_ind (v : JsValue) : P v :=
  match v with
  | JUndefined => P_undefined
  | JNull => P_null
  | JBool b => P_bool b
  | JNum n => P_num n
  | JStr s => P_str s
  | JArr items =>
      P_arr items
        ((fix all (l : list JsValue) : Forall P l :=
            match l with
            | [] => Forall_nil P
            | x :: rest => Forall_cons x (JsValue_nested_ind x) (all rest)
            end) items)
  | JObj fields =>
      P_obj fields
        ((fix all (l : list (string * JsValue))
            : Forall (fun kv => P (snd kv)) l :=
            match l with
            | [] => Forall_nil _
            | kv :: rest =>
                Forall_cons kv (JsValue_nested_ind (snd kv)) (all rest)
            end) fields)
  end.

End JsValue_induction.

(** What is thrown.  [Error] carries the message of a [throw new Error];
    the messages of the engine's own [TypeError] and [SyntaxError] are not
    part of the repository and are left out. *)
Inductive JsError : Type :=
| Error (message : string)
| TypeError
| SyntaxError.

Inductive result (A : Type) : Type :=
| Ok (a : A)
| Throw (e : JsError).

Arguments Ok {A} a.
Arguments Throw {A} e.

Definition bind {A B : Type} (r : result A) (k : A -> result B) : result B :=
  match r with
  | Ok a => k a
  | Throw e => Throw e
  end.

Declare Scope js_scope.
Delimit Scope js_scope with js.
Notation "'let*' x ':=' r 'in' k" :=
  (bind r (fun x => k))
  (at level 10, x name, r at level 100, k at level 200) : js_scope.
Local Open Scope js_scope.

(** The engine under the handler. *)
Class JsRuntime : Type := {
  (** [JSON.parse] of a text: the value, or [None] for a [SyntaxError]. *)
  JSON_parse_text : string -> option JsValue;
  (** [Number.prototype.toString] of a rational that is not an integer
      below 2^53 in absolute value. *)
  Number_toString_other : Q -> string;
  (** Whether [Object.prototype] still has the [__proto__] accessor
      (Deno deletes it at start-up, other engines keep it). *)
  has_proto_accessor : bool
}.

(** ** Operations of the engine on values *)

Section Engine.

Context {rt : JsRuntime}.

(** [ToBoolean]. *)
Definition truthy (v : JsValue) : bool :=
  match v with
  | JUndefined | JNull => false
  | JBool b => b
  | JNum n => Number.truthy n
  | JStr s => negb (Str.is_empty s)
  | JArr _ | JObj _ => true
  end.

(** [a || b]. *)
Definition or_else (a b : JsValue) : JsValue := if truthy a then a else b.

Fixpoint assoc {A : Type} (k : string) (l : list (string * A)) : option A :=
  match l with
  | [] => None
  | (k', a) :: rest => if String.eqb k k' then Some a else assoc k rest
  end.

(** [v.name] for the names this program reads ([propertyType],
    [amenities], [choices], [message], [content], [estimatedPrice], ...):
    none of them is inherited from a prototype, an index or [length], so
    only an object can have one, as an own property. *)
Definition get (v : JsValue) (name : string) : result JsValue :=
  match v with
  | JUndefined | JNull => Throw TypeError
  | JObj fields =>
      Ok (match assoc name fields with Some x => x | None => JUndefined end)
  | JBool _ | JNum _ | JStr _ | JArr _ => Ok JUndefined
  end.

(** [v[0]]. *)
Definition get_index0 (v : JsValue) : result JsValue :=
  match v with
  | JUndefined | JNull => Throw TypeError
  | JArr (x :: _) => Ok x
  | JArr [] => Ok JUndefined
  | JStr (String c _) => Ok (JStr (String c EmptyString))
  | JStr EmptyString => Ok JUndefined
  | JObj fields =>
      Ok (match assoc "0" fields with Some x => x | None => JUndefined end)
  | JBool _ | JNum _ => Ok JUndefined
  end.

(** Below this bound, in absolute value, an integer is a binary64
    number next to which the other integers are too, and it is printed
    by all its digits; from it on the engine prints the shortest digits
    that tell the number from its neighbours and pads them with
    zeros. *)
Definition exact_print_bound : Z := 2 ^ 53.

(** [Number.prototype.toString]. *)
Definition Number_toString (n : number) : string :=
  match n with
  | NaN => "NaN"
  | Infinity false => "Infinity"
  | Infinity true => "-Infinity"
  | Num q =>
      match Number.as_Z n with
      | Some z => if Z.abs z <? exact_print_bound then Str.of_Z z
                  else Number_toString_other q
      | None => Number_toString_other q
      end
  end.

(** [ToString], as a template literal and [JSON.parse] apply it.  An
    object is printed by [Object.prototype.toString] unless it has an own
    property of that name: coming out of [JSON.parse] that property is
    not callable, and the conversion throws. *)
Fixpoint ToString (v : JsValue) : result string :=
  match v with
  | JUndefined => Ok "undefined"
  | JNull => Ok "null"
  | JBool true => Ok "true"
  | JBool false => Ok "false"
  | JNum n => Ok (Number_toString n)
  | JStr s => Ok s
  | JArr items =>
      (fix join (xs : list JsValue) : result string :=
         match xs with
         | [] => Ok ""
         | x :: rest =>
             let* s := match x with
                       | JUndefined | JNull => Ok ""
                       | _ => ToString x
                       end in
             match rest with
             | [] => Ok s
             | _ :: _ => let* r := join rest in Ok (s ++ "," ++ r)
             end
         end) items
  | JObj fields =>
      match assoc "toString" fields with
      | Some _ => Throw TypeError
      | None => Ok "[object Object]"
      end
  end.

(** An element of an array as [Array.prototype.join] prints it. *)
Definition join_item (x : JsValue) : result string :=
  match x with
  | JUndefined | JNull => Ok ""
  | _ => ToString x
  end.

(** [Array.prototype.join] on the items of an array. *)
Fixpoint Array_join (sep : string) (xs : list JsValue) : result string :=
  match xs with
  | [] => Ok ""
  | x :: rest =>
      let* s := join_item x in
      match rest with
      | [] => Ok s
      | _ :: _ => let* r := Array_join sep rest in Ok (s ++ sep ++ r)
      end
  end.

(** [v.join(sep)]: only an array has the method. *)
Definition join_method (v : JsValue) (sep : string) : result string :=
  match v with
  | JArr items => Array_join sep items
  | _ => Throw TypeError
  end.

(** [v.toLowerCase()]: only a string has the method. *)
Definition toLowerCase_method (v : JsValue) : result string :=
  match v with
  | JStr s => Ok (Str.toLowerCase s)
  | _ => Throw TypeError
  end.

(** The value of a digit in the radix, if it is one. *)
Definition digit_val (radix : Z) (c : ascii) : option Z :=
  let n := Z.of_nat (nat_of_ascii c) in
  let d := if (48 <=? n) && (n <=? 57) then Some (n - 48)
           else if (97 <=? n) && (n <=? 102) then Some (n - 87)
           else if (65 <=? n) && (n <=? 70) then Some (n - 55)
           else None in
  match d with
  | Some k => if k <? radix then Some k else None
  | None => None
  end.

(** The integer written by the longest prefix of digits; [acc] is the
    value of the digits read so far, [None] before the first. *)
Fixpoint digits_prefix (radix : Z) (s : string) (acc : option Z) : option Z :=
  match s with
  | EmptyString => acc
  | String c s' =>
      match digit_val radix c with
      | Some d =>
          digits_prefix radix s'
            (Some (radix * (match acc with Some a => a | None => 0 end) + d))
      | None => acc
      end
  end.

(** [parseInt] of a text, no radix given. *)
Definition parseInt_text (s : string) : number :=
  let s1 := Str.trim_start s in
  let '(negative, s2) :=
    match s1 with
    | String "-"%char r => (true, r)
    | String "+"%char r => (false, r)
    | _ => (false, s1)
    end in
  let '(radix, s3) :=
    match s2 with
    | String "0"%char (String "x"%char r) => (16, r)
    | String "0"%char (String "X"%char r) => (16, r)
    | _ => (10, s2)
    end in
  match digits_prefix radix s3 None with
  | None => NaN
  | Some z => Number.of_Z (if negative : bool then - z else z)
  end.

(** [parseInt(v)]. *)
Definition parseInt (v : JsValue) : result number :=
  let* s := ToString v in Ok (parseInt_text s).

(** [JSON.parse(v)]. *)
Definition JSON_parse (v : JsValue) : result JsValue :=
  let* s := ToString v in
  match JSON_parse_text s with
  | Some x => Ok x
  | None => Throw SyntaxError
  end.

End Engine.

(** ** The fallback heuristic: [calculateBasePriceFromArea] *)

(** What [table[key]] finds in an object literal whose own properties are
    numbers: an own property, a member inherited from [Object.prototype]
    (a function, or the prototype itself for [__proto__]), or nothing. *)
Inductive member : Type :=
| Own (n : number)
| Inherited
| Absent.

(** An operand of the product: a number, or an object that is none. *)
Inductive operand : Type :=
| ONum (n : number)
| OObject.

Definition Object_prototype_keys : list string :=
  [ "constructor"; "hasOwnProperty"; "isPrototypeOf"; "propertyIsEnumerable";
    "toLocaleString"; "toString"; "valueOf";
    "__defineGetter__"; "__defineSetter__";
    "__lookupGetter__"; "__lookupSetter__" ].

Section Fallback.

Context {rt : JsRuntime}.

(** The key names a member of [Object.prototype]. *)
Definition inherited (key : string) : bool :=
  existsb (String.eqb key) Object_prototype_keys
  || (has_proto_accessor && String.eqb key "__proto__").

(** [table[key]] on an object literal. *)
Definition literal_get (table : list (string * number)) (key : string)
  : member :=
  match assoc key table with
  | Some n => Own n
  | None => if inherited key then Inherited else Absent
  end.

(** [table[key] || dflt]. *)
Definition member_or (m : member) (dflt : number) : operand :=
  match m with
  | Own n => ONum (if Number.truthy n then n else dflt)
  | Inherited => OObject
  | Absent => ONum dflt
  end.

(** [ToNumber] of an operand: a function or a plain object gives [NaN]. *)
Definition ToNumber (o : operand) : number :=
  match o with
  | ONum n => n
  | OObject => NaN
  end.

(** Base price per sq ft by property type. *)
Definition baseRates : list (string * number) :=
  [ ("apartment", Number.of_Z 200);
    ("house", Number.of_Z 250);
    ("villa", Number.of_Z 400);
    ("penthouse", Number.of_Z 500);
    ("studio", Number.of_Z 300) ].

(** City multipliers. *)
Definition cityMultipliers : list (string * number) :=
  [ ("new york", Number.of_Q (35 # 10));
    ("san francisco", Number.of_Q (30 # 10));
    ("los angeles", Number.of_Q (25 # 10));
    ("seattle", Number.of_Q (22 # 10));
    ("boston", Number.of_Q (20 # 10));
    ("miami", Number.of_Q (18 # 10));
    ("chicago", Number.of_Q (15 # 10));
    ("austin", Number.of_Q (14 # 10));
    ("denver", Number.of_Q (13 # 10));
    ("atlanta", Number.of_Q (12 # 10)) ].

Definition calculateBasePriceFromArea
  (area : number) (city state propertyType : JsValue) : result number :=
  let* typeKey := ToString propertyType in
  let baseRate := member_or (literal_get baseRates typeKey) (Number.of_Z 250) in
  let* cityKey := toLowerCase_method city in
  let cityMultiplier :=
    member_or (literal_get cityMultipliers cityKey) (Number.of_Z 1) in
  Ok (Number.round
        (Number.mul (Number.mul area (ToNumber baseRate))
                    (ToNumber cityMultiplier))).

(** One entry of [comparableProperties]. *)
Definition comparable (price : number) (distance : string) (similarity : Z)
  : JsValue :=
  JObj [ ("price", JNum price);
         ("distance", JStr distance);
         ("similarity", JNum (Number.of_Z similarity)) ].

(** [Math.round(basePrice * f)], [f] a decimal literal. *)
Definition scaled (basePrice : number) (f : Q) : number :=
  Number.round (Number.mul basePrice (Number.of_Q f)).

(** The prediction built in the [catch] of [JSON.parse]. *)
Definition fallback_of (basePrice : number) : JsValue :=
  JObj
    [ ("estimatedPrice", JNum basePrice);
      ("priceRange",
        JObj [ ("min", JNum (scaled basePrice (85 # 100)));
               ("max", JNum (scaled basePrice (115 # 100))) ]);
      ("confidence", JNum (Number.of_Z 75));
      ("factors",
        JObj [ ("location", JNum (Number.of_Z 80));
               ("size", JNum (Number.of_Z 85));
               ("bedrooms", JNum (Number.of_Z 75));
               ("bathrooms", JNum (Number.of_Z 75));
               ("amenities", JNum (Number.of_Z 70));
               ("market", JNum (Number.of_Z 80)) ]);
      ("comparableProperties",
        JArr [ comparable (scaled basePrice (95 # 100)) "0.5 miles" 92;
               comparable (scaled basePrice (108 # 100)) "0.8 miles" 88;
               comparable (scaled basePrice (92 # 100)) "1.2 miles" 85 ]) ].

Definition fallback_prediction (propertyData : JsValue) : result JsValue :=
  let* rawArea := get propertyData "area" in
  let* area := parseInt rawArea in
  let* city := get propertyData "city" in
  let* state := get propertyData "state" in
  let* propertyType := get propertyData "propertyType" in
  let* basePrice := calculateBasePriceFromArea area city state propertyType in
  Ok (fallback_of basePrice).

End Fallback.

(** ** The prompt *)

Section Prompt.

Context {rt : JsRuntime}.

(** [${propertyData.name}]. *)
Definition tpl (propertyData : JsValue) (name : string) : result string :=
  let* v := get propertyData name in ToString v.

(** [${propertyData.name || alt}]. *)
Definition tpl_or (propertyData : JsValue) (name alt : string)
  : result string :=
  let* v := get propertyData name in ToString (or_else v (JStr alt)).

(** [${propertyData.name ? 'Yes' : 'No'}]. *)
Definition tpl_yes_no (propertyData : JsValue) (name : string)
  : result string :=
  let* v := get propertyData name in Ok (if truthy v then "Yes" else "No").

(** [${propertyData.amenities.join(', ') || 'None specified'}]. *)
Definition tpl_amenities (propertyData : JsValue) : result string :=
  let* v := get propertyData "amenities" in
  let* joined := join_method v ", " in
  Ok (if Str.is_empty joined then "None specified" else joined).

Definition prompt_intro : list string :=
  [ "You are a real estate price prediction AI expert. Analyze the following property data and provide an accurate price estimate.";
    "";
    "Property Details:" ].

Definition prompt_outro : list string :=
  [ "";
    "Based on current market data and property analysis, provide:";
    "";
    "1. Estimated market value (realistic price for current market)";
    "2. Price range (min and max)";
    "3. Confidence percentage (based on data completeness and market conditions)";
    "4. Factor scores (0-100) for: location, size, bedrooms, bathrooms, amenities, market";
    "5. 3 comparable properties with prices, distances, and similarity percentages";
    "";
    "Respond in JSON format only:";
    "{";
    "  " ++ Str.quoted "estimatedPrice" ++ ": number,";
    "  " ++ Str.quoted "priceRange" ++ ": {";
    "    " ++ Str.quoted "min" ++ ": number,";
    "    " ++ Str.quoted "max" ++ ": number";
    "  },";
    "  " ++ Str.quoted "confidence" ++ ": number (70-95),";
    "  " ++ Str.quoted "factors" ++ ": {";
    "    " ++ Str.quoted "location" ++ ": number (0-100),";
    "    " ++ Str.quoted "size" ++ ": number (0-100),";
    "    " ++ Str.quoted "bedrooms" ++ ": number (0-100),";
    "    " ++ Str.quoted "bathrooms" ++ ": number (0-100),";
    "    " ++ Str.quoted "amenities" ++ ": number (0-100),";
    "    " ++ Str.quoted "market" ++ ": number (0-100)";
    "  },";
    "  " ++ Str.quoted "comparableProperties" ++ ": [";
    "    {";
    "      " ++ Str.quoted "price" ++ ": number,";
    "      " ++ Str.quoted "distance" ++ ": " ++ Str.quoted "X.X miles" ++ ",";
    "      " ++ Str.quoted "similarity" ++ ": number (75-95)";
    "    }";
    "  ]";
    "}";
    "";
    "Consider current market trends, location desirability, property features, and recent sales data for similar properties." ].

(** The lines of the property, from the rendered fields. *)
Definition detail_lines
  (propertyType bedrooms bathrooms area city state zipcode yearBuilt
     parkingSpaces furnished petFriendly amenities : string) : list string :=
  [ "- Type: " ++ propertyType;
    "- Bedrooms: " ++ bedrooms;
    "- Bathrooms: " ++ bathrooms;
    "- Area: " ++ area ++ " sq ft";
    "- Location: " ++ city ++ ", " ++ state;
    "- ZIP Code: " ++ zipcode;
    "- Year Built: " ++ yearBuilt;
    "- Parking Spaces: " ++ parkingSpaces;
    "- Furnished: " ++ furnished;
    "- Pet Friendly: " ++ petFriendly;
    "- Amenities: " ++ amenities ].

(** The template literal of the handler; the substitutions are
    evaluated in the order they are written. *)
Definition build_prompt (propertyData : JsValue) : result string :=
  let* propertyType := tpl propertyData "propertyType" in
  let* bedrooms := tpl propertyData "bedrooms" in
  let* bathrooms := tpl propertyData "bathrooms" in
  let* area := tpl propertyData "area" in
  let* city := tpl propertyData "city" in
  let* state := tpl propertyData "state" in
  let* zipcode := tpl_or propertyData "zipcode" "Not provided" in
  let* yearBuilt := tpl_or propertyData "yearBuilt" "Not provided" in
  let* parkingSpaces := tpl_or propertyData "parkingSpaces" "Not provided" in
  let* furnished := tpl_yes_no propertyData "furnished" in
  let* petFriendly := tpl_yes_no propertyData "petFriendly" in
  let* amenities := tpl_amenities propertyData in
  Ok (Str.nl
      ++ Str.unlines
           (prompt_intro
            ++ detail_lines propertyType bedrooms bathrooms area city state
                 zipcode yearBuilt parkingSpaces furnished petFriendly
                 amenities
            ++ prompt_outro)).

End Prompt.

(** ** The handler of the edge function *)

Record ChatMessage : Type := {
  role : string;
  content : string
}.

(** The body and the credentials of the POST to the chat-completion
    endpoint. *)
Record ChatRequest : Type := {
  url : string;
  authorization : string;
  model : string;
  messages : list ChatMessage;
  temperature : Q;
  max_tokens : Z
}.

(** How [await fetch(...)] ends: the promise rejects, or it resolves to a
    response with its status, status text and the outcome of
    [response.json()]. *)
Inductive FetchOutcome : Type :=
| FetchRejects (e : JsError)
| FetchResolves (status : Z) (statusText : string) (json : result JsValue).

(** [response.ok]: the status is in the range 200 to 299. *)
Definition response_ok (status : Z) : bool :=
  (200 <=? status) && (status <=? 299).

(** What surrounds the handler: the environment variable and the remote
    service. *)
Record World : Type := {
  OPENAI_API_KEY : option string;
  fetch : ChatRequest -> FetchOutcome
}.

(** The request as the handler reads it: the method and the outcome of
    [req.json()]. *)
Record HttpRequest : Type := {
  method : string;
  req_json : result JsValue
}.

(** The three responses of the handler: the answer to a CORS preflight,
    status 200 with [{ prediction }], and status 500 with
    [{ error: 'Failed to generate price prediction', message }].
    [Success] holds the prediction as the handler hands it to
    [JSON.stringify]; [received], further down, is the body as its reader
    decodes it, which differs where a number is not finite. *)
Inductive Response : Type :=
| Preflight
| Success (prediction : JsValue)
| Failure (error : JsError).

Definition status_of (r : Response) : Z :=
  match r with
  | Preflight | Success _ => 200
  | Failure _ => 500
  end.

Section Handler.

Context {rt : JsRuntime}.

Definition system_instruction : string :=
  "You are a professional real estate appraiser and market analyst with extensive knowledge of property valuation. Always respond with valid JSON only.".

Definition chat_request (w : World) (prompt : string) : ChatRequest :=
  {| url := "https://api.openai.com/v1/chat/completions";
     authorization :=
       "Bearer " ++ match OPENAI_API_KEY w with
                    | Some key => key
                    | None => "undefined"
                    end;
     model := "gpt-4o-mini";
     messages := [ {| role := "system"; content := system_instruction |};
                   {| role := "user"; content := prompt |} ];
     temperature := 3 # 10;
     max_tokens := 2000 |}.

Definition invalid_structure : JsError :=
  Error "Invalid prediction structure received from AI".

Definition invalid_response : JsError :=
  Error "Invalid response from OpenAI".

(** Validate the prediction structure. *)
Definition validate (prediction : JsValue) : result JsValue :=
  let* estimatedPrice := get prediction "estimatedPrice" in
  if negb (truthy estimatedPrice) then Throw invalid_structure else
  let* priceRange := get prediction "priceRange" in
  if negb (truthy priceRange) then Throw invalid_structure else
  let* factors := get prediction "factors" in
  if negb (truthy factors) then Throw invalid_structure else
  Ok prediction.

(** [try { prediction = JSON.parse(aiResponse) } catch { ... }]. *)
Definition parse_or_fallback (propertyData aiResponse : JsValue)
  : result JsValue :=
  match JSON_parse aiResponse with
  | Ok prediction => Ok prediction
  | Throw _ => fallback_prediction propertyData
  end.

(** [data.choices[0].message.content] of the response of the remote
    service, with the checks on the way to it. *)
Definition ai_response (outcome : FetchOutcome) : result JsValue :=
  match outcome with
  | FetchRejects e => Throw e
  | FetchResolves status statusText json =>
      if negb (response_ok status)
      then Throw (Error ("OpenAI API error: " ++ statusText)) else
      let* data := json in
      let* choices := get data "choices" in
      if negb (truthy choices) then Throw invalid_response else
      let* first := get_index0 choices in
      if negb (truthy first) then Throw invalid_response else
      let* message := get first "message" in
      if negb (truthy message) then Throw invalid_response else
      get message "content"
  end.

(** The handler from the response of the remote service on. *)
Definition after_fetch (propertyData : JsValue) (outcome : FetchOutcome)
  : result JsValue :=
  let* aiResponse := ai_response outcome in
  let* prediction := parse_or_fallback propertyData aiResponse in
  validate prediction.

(** The end of the [try] block and the [catch] around it. *)
Definition respond (outcome : result JsValue) : Response :=
  match outcome with
  | Ok prediction => Success prediction
  | Throw e => Failure e
  end.

(** What precedes the remote call. *)
Definition before_fetch (req : HttpRequest) : result (JsValue * string) :=
  let* propertyData := req_json req in
  let* prompt := build_prompt propertyData in
  Ok (propertyData, prompt).

(** The [try] block, with the chat requests it sent. *)
Definition try_block (w : World) (req : HttpRequest)
  : result JsValue * list ChatRequest :=
  match before_fetch req with
  | Throw e => (Throw e, [])
  | Ok (propertyData, prompt) =>
      let request := chat_request w prompt in
      (after_fetch propertyData (fetch w request), [request])
  end.

(** The function given to [serve]: the response, and the chat requests
    sent on the way. *)
Definition handler (w : World) (req : HttpRequest)
  : Response * list ChatRequest :=
  if String.eqb (method req) "OPTIONS" then (Preflight, [])
  else
    let '(outcome, sent) := try_block w req in (respond outcome, sent).

End Handler.

(** ** The caller: [handleSubmit] of the price-prediction page *)

Record FormData : Type := {
  propertyType : string;
  bedrooms : string;
  bathrooms : string;
  area : string;
  address : string;
  city : string;
  state : string;
  zipcode : string;
  yearBuilt : string;
  parkingSpaces : string;
  furnished : bool;
  petFriendly : bool;
  amenities : list string
}.

(** What [handleSubmit] does to the page and the network, in order. *)
Inductive UiEffect : Type :=
| PreventDefault
| Toast (title description : string) (destructive : bool)
| SetLoading (loading : bool)
| Invoke (function_name : string) (body : FormData)
| SetPrediction (prediction : JsValue)
| ConsoleError.

(** How [await supabase.functions.invoke(...)] ends. *)
Inductive InvokeOutcome : Type :=
| InvokeReturns (data : JsValue) (error : option JsError)
| InvokeThrows (e : JsError).

Section Caller.

Variable invoke : string -> FormData -> InvokeOutcome.

(** A string of the form is falsy when it is empty. *)
Definition blank (s : string) : bool := Str.is_empty s.

Definition missing_information (f : FormData) : bool :=
  blank (propertyType f) || blank (bedrooms f) || blank (bathrooms f)
  || blank (area f) || blank (city f) || blank (state f).

Definition prediction_failed : list UiEffect :=
  [ ConsoleError;
    Toast "Prediction failed"
      "Unable to generate price prediction. Please try again." true ].

Definition handleSubmit (f : FormData) : list UiEffect :=
  if missing_information f then
    [ PreventDefault;
      Toast "Missing information" "Please fill in all required fields." true ]
  else
    [ PreventDefault; SetLoading true; Invoke "predict-price" f ]
    ++ match invoke "predict-price" f with
       | InvokeThrows _ => prediction_failed
       | InvokeReturns _ (Some _) => prediction_failed
       | InvokeReturns data None =>
           match get data "prediction" with
           | Throw _ => prediction_failed
           | Ok prediction =>
               [ SetPrediction prediction;
                 Toast "Price prediction generated!"
                   "Your property valuation is ready." false ]
           end
       end
    ++ [ SetLoading false ].

(** The calls of the edge function among the effects. *)
Definition invocations (effects : list UiEffect) : list FormData :=
  flat_map (fun e => match e with Invoke _ body => [body] | _ => [] end)
    effects.

End Caller.

(** The body [supabase.functions.invoke] posts: the form as JSON. *)
Definition json_of_form (f : FormData) : JsValue :=
  JObj [ ("propertyType", JStr (propertyType f));
         ("bedrooms", JStr (bedrooms f));
         ("bathrooms", JStr (bathrooms f));
         ("area", JStr (area f));
         ("address", JStr (address f));
         ("city", JStr (city f));
         ("state", JStr (state f));
         ("zipcode", JStr (zipcode f));
         ("yearBuilt", JStr (yearBuilt f));
         ("parkingSpaces", JStr (parkingSpaces f));
         ("furnished", JBool (furnished f));
         ("petFriendly", JBool (petFriendly f));
         ("amenities", JArr (map JStr (amenities f))) ].

(** ** The page and the function together *)

Definition post (body : JsValue) : HttpRequest :=
  {| method := "POST"; req_json := Ok body |}.

(** The chat requests that the effects of the page cause: those of the
    handler, once per invocation of the edge function. *)
Definition remote_calls {rt : JsRuntime} (w : World) (effects : list UiEffect)
  : list ChatRequest :=
  flat_map (fun body => snd (handler w (post (json_of_form body))))
    (invocations effects).

(** ** What the specification asks of an estimate *)

Module Estimate.

Definition num_field (v : JsValue) (name : string) : option Q :=
  match get v name with
  | Ok (JNum (Num q)) => Some q
  | _ => None
  end.

Definition percent (q : Q) : bool := Qle_bool 0 q && Qle_bool q 100.

Definition positive (q : Q) : bool := Qle_bool 0 q && negb (Qeq_bool q 0).

Definition score (v : JsValue) : bool :=
  match v with
  | JNum (Num q) => percent q
  | _ => false
  end.

Definition range_holds (v : JsValue) (price : Q) : bool :=
  match num_field v "min", num_field v "max" with
  | Some lo, Some hi => Qle_bool lo price && Qle_bool price hi
  | _, _ => false
  end.

Definition similar (v : JsValue) : bool :=
  match num_field v "similarity" with
  | Some s => percent s
  | None => false
  end.

(** [estimatedPrice > 0], [min <= estimatedPrice <= max], the confidence
    and every factor score within [0, 100], and exactly three comparable
    properties, each with a similarity within [0, 100]. *)
Definition well_formed (v : JsValue) : bool :=
  match num_field v "estimatedPrice", get v "priceRange",
        num_field v "confidence", get v "factors",
        get v "comparableProperties" with
  | Some price, Ok range, Some confidence, Ok (JObj factors),
    Ok (JArr comparables) =>
      positive price
      && range_holds range price
      && percent confidence
      && forallb (fun kv => score (snd kv)) factors
      && Nat.eqb (List.length comparables) 3
      && forallb similar comparables
  | _, _, _, _, _ => false
  end.

End Estimate.

(** ** Notions the properties are stated with *)

(** The first integer binary64 no longer tells from its successor: an
    area below it is read exactly. *)
Definition safe_integer : Z := 2 ^ 53.

(** A bound on the base price of an area of at most [safe_integer]. *)
Definition price_ceiling : Z := 2 ^ 66.

(** The remote call failed: the transport did, or the status is not a
    success. *)
Definition remote_call_fails (outcome : FetchOutcome) : bool :=
  match outcome with
  | FetchRejects _ => true
  | FetchResolves status _ _ => negb (response_ok status)
  end.

(** What the handler throws on a failed remote call. *)
Definition failure_of (outcome : FetchOutcome) : JsError :=
  match outcome with
  | FetchRejects e => e
  | FetchResolves _ statusText _ => Error ("OpenAI API error: " ++ statusText)
  end.

Definition nullish (v : JsValue) : bool :=
  match v with
  | JUndefined | JNull => true
  | _ => false
  end.

(** The property is there and truthy. *)
Definition has_field (v : JsValue) (name : string) : bool :=
  match get v name with
  | Ok x => truthy x
  | Throw _ => false
  end.

(** One of [estimatedPrice], [priceRange], [factors] is missing (or
    falsy). *)
Definition incomplete (prediction : JsValue) : bool :=
  negb (has_field prediction "estimatedPrice"
        && has_field prediction "priceRange"
        && has_field prediction "factors").

(** The request body describes a property of [n] sq ft of the given type
    in the given city: its [area] reads as the integer [n], its
    [propertyType] and [city] are the two strings. *)
Record describes {rt : JsRuntime} (propertyData : JsValue)
  (n : Z) (type town : string) : Prop := {
  area_read :
    exists raw, get propertyData "area" = Ok raw
                /\ parseInt raw = Ok (Number.of_Z n);
  type_read : get propertyData "propertyType" = Ok (JStr type);
  city_read : get propertyData "city" = Ok (JStr town)
}.

(** The fields of an object but the named one. *)
Definition without (name : string) (fields : list (string * JsValue))
  : list (string * JsValue) :=
  filter (fun kv => negb (String.eqb name (fst kv))) fields.

(** ** The heuristic in the words of the specification *)

Module Spec.

(** [baseRatePerSqft]: a fixed table keyed by property type, 250 for a
    type that is not in it. *)
Definition baseRatePerSqft (type : string) : number :=
  match assoc type baseRates with
  | Some rate => rate
  | None => Number.of_Z 250
  end.

(** [cityMultiplier]: a fixed table keyed by the lower-cased city name,
    1.0 for a city that is not in it. *)
Definition cityMultiplier (city : string) : number :=
  match assoc (Str.toLowerCase city) cityMultipliers with
  | Some multiplier => multiplier
  | None => Number.of_Z 1
  end.

(** [basePrice = areaSqft x baseRatePerSqft(propertyType) x
    cityMultiplier(city)], rounded. *)
Definition estimatedPrice (areaSqft : number) (type city : string) : number :=
  Number.round
    (Number.mul (Number.mul areaSqft (baseRatePerSqft type))
                (cityMultiplier city)).

End Spec.

(** ** Scenarios: a form, a remote service and an engine to run them on *)

Module Scenario.

(** A filled form; the type, the area and the city vary. *)
Definition form (type sqft town : string) : FormData :=
  {| propertyType := type;
     bedrooms := "3";
     bathrooms := "2";
     area := sqft;
     address := "742 Evergreen Terrace";
     city := town;
     state := "FL";
     zipcode := "";
     yearBuilt := "";
     parkingSpaces := "";
     furnished := false;
     petFriendly := true;
     amenities := [ "Gym"; "Garden" ] |}.

(** The response of the chat-completion endpoint with the given content
    in its first choice. *)
Definition completion (reply : JsValue) : FetchOutcome :=
  FetchResolves 200 "OK"
    (Ok (JObj
           [ ("choices",
               JArr
                 [ JObj
                     [ ("index", JNum (Number.of_Z 0));
                       ("message",
                         JObj [ ("role", JStr "assistant");
                                ("content", reply) ]) ] ]) ])).

(** The request the page posts for a form. *)
Definition submit (f : FormData) : HttpRequest := post (json_of_form f).

(** The body of the request of a client that leaves a field out. *)
Definition body_without (name : string) (f : FormData) : JsValue :=
  match json_of_form f with
  | JObj fields => JObj (without name fields)
  | body => body
  end.

Definition submit_without (name : string) (f : FormData) : HttpRequest :=
  post (body_without name f).

(** A world whose remote service ends every call the same way. *)
Definition world (outcome : FetchOutcome) : World :=
  {| OPENAI_API_KEY := Some "sk-test"; fetch := fun _ => outcome |}.

Definition unavailable : FetchOutcome :=
  FetchResolves 503 "Service Unavailable" (Throw SyntaxError).

(** A reply that is prose, not JSON. *)
Definition prose : string := "I am sorry, I cannot price this property.".

(** A reply that is JSON without [priceRange]. *)
Definition incomplete_text : string :=
  "{" ++ Str.quoted "estimatedPrice" ++ ": 350000, "
      ++ Str.quoted "factors" ++ ": {}}".

Definition incomplete_value : JsValue :=
  JObj [ ("estimatedPrice", JNum (Number.of_Z 350000));
         ("factors", JObj []) ].

(** A reply that is JSON with the three sub-fields and nothing right. *)
Definition careless_text : string :=
  "{" ++ Str.quoted "estimatedPrice" ++ ": -5, "
      ++ Str.quoted "priceRange" ++ ": {"
      ++ Str.quoted "min" ++ ": 10, " ++ Str.quoted "max" ++ ": 1}, "
      ++ Str.quoted "factors" ++ ": {" ++ Str.quoted "location" ++ ": 250}}".

Definition careless_value : JsValue :=
  JObj [ ("estimatedPrice", JNum (Number.of_Z (-5)));
         ("priceRange",
           JObj [ ("min", JNum (Number.of_Z 10));
                  ("max", JNum (Number.of_Z 1)) ]);
         ("factors", JObj [ ("location", JNum (Number.of_Z 250)) ]) ].

(** What [JSON.parse] makes of the texts above. *)
Definition parses : list (string * JsValue) :=
  [ (incomplete_text, incomplete_value);
    (careless_text, careless_value) ].

(** An engine that agrees with ECMAScript on the texts of the scenarios:
    the two JSON texts parse to their values and [prose] is a syntax
    error.  No scenario prints a number that is not a small integer. *)
#[export] Instance engine : JsRuntime :=
  {| JSON_parse_text := fun text => assoc text parses;
     Number_toString_other := fun _ => "";
     has_proto_accessor := false |}.

(** A request body with a field set by the client. *)
Definition body_with (name : string) (v : JsValue) (body : JsValue)
  : JsValue :=
  match body with
  | JObj fields => JObj ((name, v) :: fields)
  | _ => body
  end.

(** The prompt of a request body, empty when there is none. *)
Definition prompt_of (body : JsValue) : string :=
  match build_prompt body with
  | Ok prompt => prompt
  | Throw _ => ""
  end.

(** The chat request the handler sends for a form. *)
Definition sent (w : World) (f : FormData) : ChatRequest :=
  chat_request w (prompt_of (json_of_form f)).

(** A second world: no API key, and another reply that is no JSON. *)
Definition other_world : World :=
  {| OPENAI_API_KEY := None;
     fetch := fun _ => completion (JStr "Estimate: about $1.4M") |}.

Definition villa_in_miami : FormData := form "villa" "2000" "Miami".

Definition unknown_in_nowhereville : FormData :=
  form "unknown-type" "1000" "Nowhereville".

Definition house_in_constructor : FormData :=
  form "house" "1000" "Constructor".

End Scenario.

(** * More of the code *)

(** ** The page: [handleAmenityChange] *)

(** [{ ...prev, amenities }]. *)
Definition with_amenities (prev : FormData) (l : list string) : FormData :=
  {| propertyType := propertyType prev;
     bedrooms := bedrooms prev;
     bathrooms := bathrooms prev;
     area := area prev;
     address := address prev;
     city := city prev;
     state := state prev;
     zipcode := zipcode prev;
     yearBuilt := yearBuilt prev;
     parkingSpaces := parkingSpaces prev;
     furnished := furnished prev;
     petFriendly := petFriendly prev;
     amenities := l |}.

(** The update that [handleAmenityChange] hands to [setFormData]:
    a checked amenity is appended, an unchecked one is filtered out. *)
Definition handleAmenityChange (amenity : string) (checked : bool)
  (prev : FormData) : FormData :=
  with_amenities prev
    (if checked then (amenities prev ++ [amenity])%list
     else filter (fun a => negb (String.eqb a amenity)) (amenities prev)).

(** ** The response as it is read *)

(** The properties [JSON.stringify] writes: one whose value is
    [undefined] is left out. *)
Definition kept (image : JsValue -> JsValue)
  (fields : list (string * JsValue)) : list (string * JsValue) :=
  flat_map (fun kv => match snd kv with
                      | JUndefined => []
                      | _ => [(fst kv, image (snd kv))]
                      end)
    fields.

(** [JSON.parse(JSON.stringify(v))], for [v] an element of an array or
    the value of a property that is kept: what the reader of the text
    gets.  A number that is not finite is written [null], and so is
    [undefined] in an array; the other numbers, the strings and the
    booleans are read back as they were. *)
Fixpoint as_JSON (v : JsValue) : JsValue :=
  match v with
  | JUndefined => JNull
  | JNum NaN | JNum (Infinity _) => JNull
  | JNull | JBool _ | JNum (Num _) | JStr _ => v
  | JArr items => JArr (map as_JSON items)
  | JObj fields => JObj (kept as_JSON fields)
  end.


(** The body of a response with status 200 as its reader decodes it:
    [JSON.parse] of the text [JSON.stringify({ prediction })]. *)
Definition received (r : Response) : option JsValue :=
  match r with
  | Success prediction => Some (as_JSON (JObj [ ("prediction", prediction) ]))
  | Preflight | Failure _ => None
  end.

(** ** Notions the further properties are stated with *)

(** The body of a response of the remote service holds no message:
    [choices] is missing, or empty, or its first entry has no
    [message]. *)
Definition no_message (data : JsValue) : Prop :=
  exists fields,
    data = JObj fields
    /\ (assoc "choices" fields = None
        \/ assoc "choices" fields = Some (JArr [])
        \/ exists first rest,
             assoc "choices" fields = Some (JArr (JObj first :: rest))
             /\ assoc "message" first = None).

(** What ends the digits of [parseInt]: the end of the text, or a
    character that is no decimal digit. *)
Definition stops (rest : string) : bool :=
  match rest with
  | EmptyString => true
  | String c _ =>
      match digit_val 10 c with Some _ => false | None => true end
  end.

(** The text goes on with the [x] of a hexadecimal prefix. *)
Definition hex_mark (rest : string) : bool :=
  match rest with
  | String "x"%char _ | String "X"%char _ => true
  | _ => false
  end.

(** The value of a decimal numeral, [acc] being the value of the digits
    before it. *)
Fixpoint uint_value (d : Decimal.uint) (acc : Z) : Z :=
  match d with
  | Decimal.Nil => acc
  | Decimal.D0 l => uint_value l (10 * acc + 0)
  | Decimal.D1 l => uint_value l (10 * acc + 1)
  | Decimal.D2 l => uint_value l (10 * acc + 2)
  | Decimal.D3 l => uint_value l (10 * acc + 3)
  | Decimal.D4 l => uint_value l (10 * acc + 4)
  | Decimal.D5 l => uint_value l (10 * acc + 5)
  | Decimal.D6 l => uint_value l (10 * acc + 6)
  | Decimal.D7 l => uint_value l (10 * acc + 7)
  | Decimal.D8 l => uint_value l (10 * acc + 8)
  | Decimal.D9 l => uint_value l (10 * acc + 9)
  end.

(** [${x || 'Not provided'}] on a string of the form. *)
Definition or_not_provided (s : string) : string :=
  if Str.is_empty s then "Not provided" else s.

Definition yes_no (b : bool) : string := if b then "Yes" else "No".

(** The prompt of a form, in string operations alone. *)
Definition page_prompt (f : FormData) : string :=
  let joined := String.concat ", " (amenities f) in
  Str.nl
  ++ Str.unlines
       (prompt_intro
        ++ detail_lines (propertyType f) (bedrooms f) (bathrooms f) (area f)
             (city f) (state f)
             (or_not_provided (zipcode f)) (or_not_provided (yearBuilt f))
             (or_not_provided (parkingSpaces f))
             (yes_no (furnished f)) (yes_no (petFriendly f))
             (if Str.is_empty joined then "None specified" else joined)
        ++ prompt_outro).

Definition is_toast (e : UiEffect) : bool :=
  match e with Toast _ _ _ => true | _ => false end.

(** The loading flag of the page after the effects. *)
Definition loading_after (effects : list UiEffect) (loading : bool) : bool :=
  fold_left (fun l e => match e with SetLoading b => b | _ => l end)
    effects loading.

Definition success_toast : UiEffect :=
  Toast "Price prediction generated!" "Your property valuation is ready."
    false.

(** The heuristic in whole numbers: the rates as the table has them, the
    city multipliers in tenths. *)
Module Exact.

Definition rates : list (string * Z) :=
  [ ("apartment", 200); ("house", 250); ("villa", 400); ("penthouse", 500);
    ("studio", 300) ].

Definition tenths : list (string * Z) :=
  [ ("new york", 35); ("san francisco", 30); ("los angeles", 25);
    ("seattle", 22); ("boston", 20); ("miami", 18); ("chicago", 15);
    ("austin", 14); ("denver", 13); ("atlanta", 12) ].

Definition rate (type : string) : Z :=
  match assoc type rates with Some r => r | None => 250 end.

Definition multiplier_tenths (city : string) : Z :=
  match assoc (Str.toLowerCase city) tenths with
  | Some t => t
  | None => 10
  end.

(** [area x rate x multiplier]. *)
Definition price (area : Z) (type city : string) : Z :=
  area * rate type * multiplier_tenths city / 10.

(** Up to this area, in absolute value, binary64 computes [price]
    without error. *)
Definition area_bound : Z := 2 ^ 40.

(** Up to this base price, in absolute value, the prices derived from
    it are nearest integers. *)
Definition price_bound : Z := 2 ^ 44.

(** A bound on [(1 + 2^-53)^2 - 1], the relative error of a product of
    which one factor was rounded before. *)
Definition drift : Q := 223 # 1000000000000000000.

End Exact.

(** ** More scenarios *)

Module Cases.

Import Scenario.

(** A success status with the body of an error. *)
Definition no_choices : FetchOutcome :=
  FetchResolves 200 "OK"
    (Ok (JObj [ ("error", JObj [ ("message", JStr "Rate limit reached") ]) ])).


(** A world with the same key as [world] and another remote service. *)
Definition silent_world : World :=
  {| OPENAI_API_KEY := Some "sk-test";
     fetch := fun _ => FetchRejects (Error "network") |}.

Definition no_area : FormData := form "villa" "0" "Miami".

Definition negative_area : FormData := form "villa" "-2000" "Miami".

Definition huge_area : FormData := form "villa" (Str.of_Z (2 ^ 1025)) "Miami".

End Cases.

(** * Properties *)

(** ** Rounding to binary64 *)

Module Binary64Facts.

Import Binary64.
Local Open Scope Q_scope.

Lemma two_pow_pos (e : Z) : 0 < 2 ^ e.
Proof. apply Qpower_0_lt. reflexivity. Qed.

Lemma two_pow_add (a b : Z) : 2 ^ (a + b) == 2 ^ a * 2 ^ b.
Proof. apply Qpower_plus. discriminate. Qed.

Lemma log2_bounds (n : Z) :
  (0 < n)%Z -> 2 ^ Z.log2 n <= inject_Z n /\ inject_Z n < 2 ^ (Z.log2 n + 1).
Proof.
  intros Hn.
  destruct (Z.log2_spec n Hn) as [Hlo Hhi].
  pose proof (Z.log2_nonneg n) as Hnn.
  split.
  - change 2 with (inject_Z 2). rewrite <- Zpower_Qpower by assumption.
    rewrite <- Zle_Qle. assumption.
  - change 2 with (inject_Z 2). rewrite <- Zpower_Qpower by lia.
    rewrite <- Zlt_Qlt.
    replace (Z.log2 n + 1)%Z with (Z.succ (Z.log2 n)) by lia.
    assumption.
Qed.

(** [exponent] is the binary exponent of a positive rational. *)
Lemma exponent_spec (q : Q) :
  0 < q -> 2 ^ exponent q <= q /\ q < 2 ^ (exponent q + 1).
Proof.
  intros Hq. destruct q as [a b].
  assert (Ha : (0 < a)%Z).
  { unfold Qlt in Hq. simpl in Hq. lia. }
  destruct (log2_bounds a Ha) as [Ha1 Ha2].
  destruct (log2_bounds (Zpos b) eq_refl) as [Hb1 Hb2].
  assert (Hq' : (a # b) * inject_Z (Zpos b) == inject_Z a).
  { unfold Qeq, Qmult, inject_Z. cbn [Qnum Qden].
    rewrite Pos.mul_1_r. ring. }
  unfold exponent. cbn [Qnum Qden].
  set (la := Z.log2 a) in *. set (lb := Z.log2 (Zpos b)) in *.
  set (q := a # b) in *.
  pose proof (two_pow_pos lb) as Plb.
  pose proof (two_pow_pos (lb + 1)) as Plb1.
  assert (Hlow : 2 ^ (la - lb - 1) < q).
  { apply Qmult_lt_r with (z := 2 ^ (lb + 1)); [assumption |].
    rewrite <- two_pow_add.
    replace (la - lb - 1 + (lb + 1))%Z with la by lia.
    apply Qle_lt_trans with (inject_Z a); [assumption |].
    rewrite <- Hq'. apply Qmult_lt_l; assumption. }
  assert (Hhigh : q < 2 ^ (la - lb + 1)).
  { apply Qmult_lt_r with (z := 2 ^ lb); [assumption |].
    rewrite <- two_pow_add.
    replace (la - lb + 1 + lb)%Z with (la + 1)%Z by lia.
    apply Qle_lt_trans with (q * inject_Z (Zpos b)).
    - apply Qmult_le_l; assumption.
    - rewrite Hq'. assumption. }
  destruct (Qle_bool (2 ^ (la - lb)) q) eqn:E.
  - apply Qle_bool_iff in E. split; assumption.
  - split.
    + apply Qlt_le_weak. assumption.
    + replace (la - lb - 1 + 1)%Z with (la - lb)%Z by lia.
      apply Qnot_le_lt. intros H. apply Qle_bool_iff in H. congruence.
Qed.

(** [nearest_even] is within a half of its argument. *)
Lemma nearest_even_spec (x : Q) :
  x - (1 # 2) <= inject_Z (nearest_even x) <= x + (1 # 2).
Proof.
  unfold nearest_even.
  pose proof (Qfloor_le x) as Hlo. pose proof (Qlt_floor x) as Hhi.
  rewrite inject_Z_plus in Hhi. change (inject_Z 1) with 1 in Hhi.
  destruct (Qcompare (x - inject_Z (Qfloor x)) (1 # 2)) eqn:E.
  - apply Qeq_alt in E.
    destruct (Z.even (Qfloor x));
      [| rewrite inject_Z_plus; change (inject_Z 1) with 1 ];
      split; lra.
  - apply Qlt_alt in E. split; lra.
  - apply Qgt_alt in E.
    rewrite inject_Z_plus; change (inject_Z 1) with 1. split; lra.
Qed.

Lemma eps_two_pow : 2 ^ (-53) == eps.
Proof. reflexivity. Qed.

Lemma round_pos_error (q : Q) :
  2 ^ (-1022) <= q ->
  q * (1 - eps) <= round_pos q <= q * (1 + eps).
Proof.
  intros Hq.
  assert (Hpos : 0 < q).
  { apply Qlt_le_trans with (2 ^ (-1022)); [apply two_pow_pos | assumption]. }
  destruct (exponent_spec q Hpos) as [Hlo Hhi].
  assert (He : (-1022 <= exponent q)%Z).
  { assert (H : (-1022 < exponent q + 1)%Z); [| lia].
    apply Qpower_lt_compat_l_inv with (q := 2); [| reflexivity].
    apply Qle_lt_trans with q; assumption. }
  unfold round_pos, ulp. rewrite Z.max_l by assumption.
  set (e := exponent q) in *.
  pose proof (two_pow_pos (e - 52)) as Hu.
  assert (Hhalf : 2 ^ (e - 52) * (1 # 2) <= q * eps).
  { rewrite <- eps_two_pow.
    replace (e - 52)%Z with (e + -53 + 1)%Z by lia.
    rewrite !two_pow_add. change (2 ^ 1) with 2.
    assert (H53 : 0 < 2 ^ (-53)) by apply two_pow_pos.
    nra. }
  set (u := 2 ^ (e - 52)) in *.
  assert (Hx : q / u * u == q).
  { field. intros H. rewrite H in Hu. discriminate. }
  destruct (nearest_even_spec (q / u)) as [H1 H2].
  set (m := inject_Z (nearest_even (q / u))) in *.
  set (x := q / u) in *.
  nra.
Qed.

(** On the normal range rounding moves a number by at most [2^-53] of
    itself. *)
Lemma round_error (q : Q) :
  2 ^ (-1022) <= q -> q * (1 - eps) <= round q <= q * (1 + eps).
Proof.
  intros Hq.
  assert (Hpos : 0 < q).
  { apply Qlt_le_trans with (2 ^ (-1022)); [apply two_pow_pos | assumption]. }
  unfold round. rewrite Qred_correct.
  apply Qgt_alt in Hpos. rewrite Hpos.
  apply round_pos_error. assumption.
Qed.

(** Known values: the binary64 number nearest to one tenth; a tie, which
    goes to the even significand; the overflow threshold. *)
Lemma round_examples :
  round (1 # 10) = 3602879701896397 # 36028797018963968
  /\ round 9007199254740993 = 9007199254740992
  /\ round 9007199254740995 = 9007199254740996
  /\ Number.of_Q (2 ^ 1024 - 2 ^ 970) = Infinity false
  /\ Number.of_Q (2 ^ (-1075)) = Num 0.
Proof. repeat split; vm_compute; reflexivity. Qed.

End Binary64Facts.

Module NumberFacts.

Import Binary64 Binary64Facts.
Local Open Scope Q_scope.

(** Between a half and [ceiling] a rational rounds to a finite number
    close to it. *)
Lemma of_Q_bounds (q : Q) :
  1 # 2 <= q <= Number.ceiling ->
  exists r, Number.of_Q q = Num r /\ q * (1 - eps) <= r <= q * (1 + eps).
Proof.
  intros [Hlo Hhi].
  assert (Hsmall : 2 ^ (-1022) <= q).
  { apply Qle_trans with (1 # 2); [| assumption].
    change (1 # 2) with (2 ^ (-1)).
    apply Qpower_le_compat_l; [lia | discriminate]. }
  destruct (round_error q Hsmall) as [H1 H2].
  exists (round q). split; [| split; assumption].
  unfold Number.of_Q.
  assert (Hov : overflows (round q) = false).
  { unfold overflows. apply not_true_is_false. intros H.
    apply Qle_bool_iff in H.
    assert (Hr : 0 <= round q) by (unfold eps in *; nra).
    rewrite (Qabs_pos _ Hr) in H.
    assert (Hc : Number.ceiling * 2 <= 2 ^ 1024).
    { unfold Qle. vm_compute. discriminate. }
    unfold eps in *. nra. }
  rewrite Hov. reflexivity.
Qed.

Lemma mul_bounds (x y : Q) :
  1 # 2 <= x * y <= Number.ceiling ->
  exists r, Number.mul (Num x) (Num y) = Num r
            /\ x * y * (1 - eps) <= r <= x * y * (1 + eps).
Proof. intros H. simpl. apply of_Q_bounds. assumption. Qed.

Lemma mul_interval (x y lx hx ly hy : Q) :
  0 <= lx -> lx <= x <= hx -> 0 <= ly -> ly <= y <= hy ->
  lx * ly <= x * y <= hx * hy.
Proof.
  intros H0 [H1 H2] H3 [H4 H5]. split.
  - apply Qle_trans with (x * ly).
    + apply Qmult_le_compat_r; assumption.
    + rewrite !(Qmult_comm x). apply Qmult_le_compat_r; [assumption | lra].
  - apply Qle_trans with (x * hy).
    + rewrite !(Qmult_comm x). apply Qmult_le_compat_r; [assumption | lra].
    + apply Qmult_le_compat_r; [assumption | lra].
Qed.

Lemma within_truthy (lo hi : Q) (n : number) :
  0 < lo -> Number.within lo hi n -> Number.truthy n = true.
Proof.
  intros Hlo (q & -> & H1 & H2). simpl. unfold Number.is_zero.
  destruct (Qeq_bool q 0) eqn:E; [| reflexivity].
  apply Qeq_bool_iff in E. lra.
Qed.

End NumberFacts.

(** ** The fallback heuristic *)

Module FallbackFacts.

Import Binary64 Binary64Facts NumberFacts.
Local Open Scope Q_scope.

Lemma assoc_In {A : Type} (k : string) (l : list (string * A)) (a : A) :
  assoc k l = Some a -> In a (map snd l).
Proof.
  induction l as [| [k' a'] l IH]; simpl; [discriminate |].
  destruct (String.eqb k k'); [intros [= ->]; left; reflexivity |].
  intros H. right. apply IH. assumption.
Qed.

Ltac literal :=
  eexists; split;
  [ vm_compute; reflexivity | split; vm_compute; discriminate ].

Lemma baseRates_within :
  Forall (Number.within 200 500) (map snd baseRates).
Proof. repeat constructor; literal. Qed.

Lemma cityMultipliers_within :
  Forall (Number.within 1 (35 # 10)) (map snd cityMultipliers).
Proof. repeat constructor; literal. Qed.

Section WithRuntime.

Context {rt : JsRuntime}.

(** Off the prototype, [table[key] || dflt] is the entry of the table
    or the default. *)
Lemma member_or_own table key dflt lo hi :
  0 < lo ->
  Forall (Number.within lo hi) (map snd table) ->
  inherited key = false ->
  member_or (literal_get table key) dflt
  = ONum (match assoc key table with Some n => n | None => dflt end).
Proof.
  intros Hlo Htable Hk. unfold literal_get.
  destruct (assoc key table) as [n |] eqn:E.
  - apply assoc_In in E. rewrite Forall_forall in Htable.
    simpl. rewrite (within_truthy _ _ _ Hlo (Htable _ E)). reflexivity.
  - rewrite Hk. reflexivity.
Qed.

Lemma member_or_within table key dflt lo hi :
  0 < lo ->
  Forall (Number.within lo hi) (map snd table) ->
  Number.within lo hi dflt ->
  inherited key = false ->
  exists q, member_or (literal_get table key) dflt = ONum (Num q)
            /\ lo <= q <= hi.
Proof.
  intros Hlo Htable Hd Hk.
  rewrite (member_or_own _ _ _ lo hi Hlo Htable Hk).
  destruct (assoc key table) as [n |] eqn:E.
  - apply assoc_In in E. rewrite Forall_forall in Htable.
    destruct (Htable _ E) as (q & -> & Hq).
    exists q. split; [reflexivity | assumption].
  - destruct Hd as (q & -> & Hq).
    exists q. split; [reflexivity | assumption].
Qed.

(** Off the prototype the code computes the formula of the
    specification. *)
Lemma calculateBasePriceFromArea_spec
  (areaSqft : number) (type town : string) (state : JsValue) :
  inherited type = false ->
  inherited (Str.toLowerCase town) = false ->
  calculateBasePriceFromArea areaSqft (JStr town) state (JStr type)
  = Ok (Spec.estimatedPrice areaSqft type town).
Proof.
  intros Ht Hc. unfold calculateBasePriceFromArea, Spec.estimatedPrice.
  cbn [ToString bind toLowerCase_method].
  rewrite (member_or_own baseRates type _ 200 500
             eq_refl baseRates_within Ht).
  rewrite (member_or_own cityMultipliers _ _ 1 (35 # 10)
             eq_refl cityMultipliers_within Hc).
  reflexivity.
Qed.

Lemma mul_NaN (a : number) : Number.mul a NaN = NaN.
Proof. destruct a; reflexivity. Qed.

(** A city whose lower-cased name is [constructor] finds the constructor
    of [Object.prototype] in the table of multipliers, and the base
    price is [NaN]. *)
Lemma calculateBasePriceFromArea_constructor
  (areaSqft : number) (type town : string) (state : JsValue) :
  Str.toLowerCase town = "constructor" ->
  calculateBasePriceFromArea areaSqft (JStr town) state (JStr type) = Ok NaN.
Proof.
  intros Htown. unfold calculateBasePriceFromArea.
  cbn [ToString bind toLowerCase_method]. rewrite Htown.
  change (literal_get cityMultipliers "constructor") with Inherited.
  cbn [member_or ToNumber]. rewrite mul_NaN. reflexivity.
Qed.

(** The base price of a positive area is a positive integer. *)
Lemma calculateBasePriceFromArea_bounds
  (n : Z) (type town : string) (state : JsValue) :
  (0 < n <= safe_integer)%Z ->
  inherited type = false ->
  inherited (Str.toLowerCase town) = false ->
  exists k,
    calculateBasePriceFromArea (Number.of_Z n) (JStr town) state (JStr type)
    = Ok (Num (inject_Z k))
    /\ (200 <= k <= price_ceiling)%Z.
Proof.
  intros [Hn1 Hn2] Ht Hc.
  assert (Hq1 : 1 <= inject_Z n).
  { change 1 with (inject_Z 1). rewrite <- Zle_Qle. lia. }
  assert (Hq2 : inject_Z n <= 9007199254740992).
  { change 9007199254740992 with (inject_Z safe_integer).
    rewrite <- Zle_Qle. assumption. }
  destruct (of_Q_bounds (inject_Z n)) as (a & Ea & Ha1 & Ha2).
  { unfold Number.ceiling. split; lra. }
  destruct (member_or_within baseRates type (Number.of_Z 250) 200 500)
    as (r & Er & Hr1 & Hr2);
    [ reflexivity | apply baseRates_within | literal | assumption | ].
  destruct (member_or_within cityMultipliers (Str.toLowerCase town)
              (Number.of_Z 1) 1 (35 # 10))
    as (m & Em & Hm1 & Hm2);
    [ reflexivity | apply cityMultipliers_within | literal | assumption | ].
  unfold eps in *.
  assert (Ha : 9999 # 10000 <= a <= 9007199254740994) by (split; lra).
  pose proof (mul_interval a r (9999 # 10000) 9007199254740994 200 500
                ltac:(lra) Ha ltac:(lra) (conj Hr1 Hr2)) as [Har1 Har2].
  destruct (mul_bounds a r) as (x & Ex & Hx1 & Hx2).
  { unfold Number.ceiling. split; lra. }
  unfold eps in *.
  assert (Hx : 19997 # 100 <= x <= 4503599627370498000) by (split; lra).
  pose proof (mul_interval x m (19997 # 100) 4503599627370498000 1 (35 # 10)
                ltac:(lra) Hx ltac:(lra) (conj Hm1 Hm2)) as [Hxm1 Hxm2].
  destruct (mul_bounds x m) as (y & Ey & Hy1 & Hy2).
  { unfold Number.ceiling. split; lra. }
  unfold eps in *.
  exists (Qfloor (y + (1 # 2))). split.
  - unfold calculateBasePriceFromArea.
    cbn [ToString bind toLowerCase_method].
    rewrite Er, Em. unfold Number.of_Z. rewrite Ea. cbn [ToNumber].
    rewrite Ex, Ey. reflexivity.
  - split.
    + change 200%Z with (Qfloor (inject_Z 200)).
      apply Qfloor_resp_le. change (inject_Z 200) with 200. lra.
    + apply Z.lt_succ_r. rewrite Zlt_Qlt.
      apply Qle_lt_trans with (y + (1 # 2)); [apply Qfloor_le |].
      unfold price_ceiling. vm_compute (inject_Z _). lra.
Qed.

(** [Math.round(basePrice * f)] is an integer within one of
    [basePrice * f], for a factor [f] near one. *)
Lemma scaled_spec (k : Z) (f : Q) :
  (1 <= k <= price_ceiling)%Z -> 3 # 4 <= f <= 5 # 4 ->
  exists z,
    scaled (Num (inject_Z k)) f = Num (inject_Z z)
    /\ inject_Z k * (f - (1 # 1000)) - (1 # 2) < inject_Z z
    /\ inject_Z z <= inject_Z k * (f + (1 # 1000)) + (1 # 2).
Proof.
  intros [Hk1 Hk2] [Hf1 Hf2].
  assert (Hq1 : 1 <= inject_Z k).
  { change 1 with (inject_Z 1). rewrite <- Zle_Qle. lia. }
  assert (Hq2 : inject_Z k <= 73786976294838206464).
  { change 73786976294838206464 with (inject_Z price_ceiling).
    rewrite <- Zle_Qle. lia. }
  destruct (of_Q_bounds f) as (c & Ec & Hc1 & Hc2).
  { unfold Number.ceiling. split; lra. }
  unfold eps in *.
  assert (Hc : f - (1 # 2000) <= c <= f + (1 # 2000)) by (split; lra).
  set (x := inject_Z k) in *.
  assert (Hxc : x * (f - (1 # 2000)) <= x * c <= x * (f + (1 # 2000))).
  { split; apply Qmult_le_l; lra. }
  destruct (mul_bounds x c) as (y & Ey & Hy1 & Hy2).
  { unfold Number.ceiling. split; nra. }
  unfold eps in *.
  exists (Qfloor (y + (1 # 2))). unfold scaled.
  rewrite Ec, Ey. split; [reflexivity |].
  pose proof (Qfloor_le (y + (1 # 2))) as Fl.
  pose proof (Qlt_floor (y + (1 # 2))) as Fh.
  rewrite inject_Z_plus in Fh. change (inject_Z 1) with 1 in Fh.
  split; nra.
Qed.

End WithRuntime.

End FallbackFacts.

(** ** The estimate of the fallback *)

Module EstimateFacts.

Import FallbackFacts.
Local Open Scope Q_scope.

Lemma well_formed_shape (x l h : Q) (c1 c2 c3 : number) :
  Estimate.positive x = true -> Qle_bool l x = true -> Qle_bool x h = true ->
  Estimate.well_formed
    (JObj
       [ ("estimatedPrice", JNum (Num x));
         ("priceRange",
           JObj [ ("min", JNum (Num l)); ("max", JNum (Num h)) ]);
         ("confidence", JNum (Num 75));
         ("factors",
           JObj [ ("location", JNum (Num 80));
                  ("size", JNum (Num 85));
                  ("bedrooms", JNum (Num 75));
                  ("bathrooms", JNum (Num 75));
                  ("amenities", JNum (Num 70));
                  ("market", JNum (Num 80)) ]);
         ("comparableProperties",
           JArr [ JObj [ ("price", JNum c1);
                         ("distance", JStr "0.5 miles");
                         ("similarity", JNum (Num 92)) ];
                  JObj [ ("price", JNum c2);
                         ("distance", JStr "0.8 miles");
                         ("similarity", JNum (Num 88)) ];
                  JObj [ ("price", JNum c3);
                         ("distance", JStr "1.2 miles");
                         ("similarity", JNum (Num 85)) ] ]) ])
  = true.
Proof.
  intros Hp Hl Hh.
  unfold Estimate.well_formed, Estimate.range_holds, Estimate.num_field.
  cbn [get assoc String.eqb Ascii.eqb Bool.eqb].
  rewrite Hp, Hl, Hh. reflexivity.
Qed.

(** The estimate built from a positive integer base price has all that
    the specification asks of an estimate. *)
Lemma fallback_of_well_formed (k : Z) :
  (1 <= k <= price_ceiling)%Z ->
  Estimate.well_formed (fallback_of (Num (inject_Z k))) = true.
Proof.
  intros Hk.
  destruct (scaled_spec k (85 # 100) Hk) as (lo & Elo & Hlo1 & Hlo2);
    [split; lra |].
  destruct (scaled_spec k (115 # 100) Hk) as (hi & Ehi & Hhi1 & Hhi2);
    [split; lra |].
  assert (Hq1 : 1 <= inject_Z k).
  { change 1 with (inject_Z 1). rewrite <- Zle_Qle. lia. }
  unfold fallback_of, comparable. rewrite Elo, Ehi.
  change (Number.of_Z 70) with (Num 70).
  change (Number.of_Z 75) with (Num 75).
  change (Number.of_Z 80) with (Num 80).
  change (Number.of_Z 85) with (Num 85).
  change (Number.of_Z 88) with (Num 88).
  change (Number.of_Z 92) with (Num 92).
  apply well_formed_shape.
  - unfold Estimate.positive. apply andb_true_intro. split.
    + apply Qle_bool_iff. lra.
    + apply negb_true_iff. apply not_true_is_false. intros H.
      apply Qeq_bool_iff in H. lra.
  - apply Qle_bool_iff. rewrite <- Zle_Qle.
    assert (H : (lo < k + 1)%Z); [| lia].
    rewrite Zlt_Qlt, inject_Z_plus. change (inject_Z 1) with 1. lra.
  - apply Qle_bool_iff. rewrite <- Zle_Qle.
    assert (H : (k + -1 < hi)%Z); [| lia].
    rewrite Zlt_Qlt, inject_Z_plus. change (inject_Z (-1)) with (-1). lra.
Qed.

(** A truthy [estimatedPrice], [priceRange] and [factors] pass the
    validation. *)
Lemma validate_fallback_of (k : Z) :
  (1 <= k)%Z ->
  validate (fallback_of (Num (inject_Z k))) = Ok (fallback_of (Num (inject_Z k))).
Proof.
  intros Hk. unfold validate, fallback_of.
  cbn [get assoc String.eqb Ascii.eqb Bool.eqb bind truthy negb].
  assert (H : Number.truthy (Num (inject_Z k)) = true).
  { simpl. unfold Number.is_zero. apply negb_true_iff.
    apply not_true_is_false. intros H. apply Qeq_bool_iff in H.
    assert (H1 : 1 <= inject_Z k).
    { change 1 with (inject_Z 1). rewrite <- Zle_Qle. lia. }
    lra. }
  rewrite H. reflexivity.
Qed.

End EstimateFacts.

(** ** The handler *)

Module HandlerFacts.

Import FallbackFacts EstimateFacts.

Section WithRuntime.

Context {rt : JsRuntime}.

(** A handler that sent a chat request read the body, built the prompt
    and answers with what follows the remote call. *)
Lemma handler_sent (w : World) (req : HttpRequest) (sent : ChatRequest) :
  snd (handler w req) = [sent] ->
  exists propertyData prompt,
    req_json req = Ok propertyData
    /\ build_prompt propertyData = Ok prompt
    /\ sent = chat_request w prompt
    /\ handler w req
       = (respond (after_fetch propertyData (fetch w sent)), [sent]).
Proof.
  unfold handler, try_block, before_fetch.
  destruct (String.eqb (method req) "OPTIONS"); [discriminate |].
  destruct (req_json req) as [propertyData | e]; [| discriminate].
  cbn [bind].
  destruct (build_prompt propertyData) as [prompt | e] eqn:E;
    [| discriminate].
  cbn [bind snd]. intros [= <-].
  exists propertyData, prompt. repeat split; assumption || reflexivity.
Qed.

(** The response is a function of the request and of how the remote
    call ended: the same failure forced twice gives the same response. *)
Lemma handler_same_outcome
  (w1 w2 : World) (req : HttpRequest) (sent1 sent2 : ChatRequest) :
  snd (handler w1 req) = [sent1] ->
  snd (handler w2 req) = [sent2] ->
  fetch w1 sent1 = fetch w2 sent2 ->
  fst (handler w1 req) = fst (handler w2 req).
Proof.
  intros H1 H2 Hsame.
  destruct (handler_sent w1 req sent1 H1) as (pd & p & Hb & _ & _ & ->).
  destruct (handler_sent w2 req sent2 H2) as (pd' & p' & Hb' & _ & _ & ->).
  rewrite Hb in Hb'. injection Hb' as <-.
  cbn [fst]. rewrite Hsame. reflexivity.
Qed.

Lemma after_fetch_failed (propertyData : JsValue) (outcome : FetchOutcome) :
  remote_call_fails outcome = true ->
  after_fetch propertyData outcome = Throw (failure_of outcome).
Proof.
  destruct outcome as [e | status statusText json]; simpl.
  - reflexivity.
  - intros H. unfold after_fetch, ai_response. rewrite H. reflexivity.
Qed.

Lemma after_fetch_reply (propertyData reply : JsValue)
  (outcome : FetchOutcome) :
  ai_response outcome = Ok reply ->
  after_fetch propertyData outcome
  = (let* prediction := parse_or_fallback propertyData reply in
     validate prediction).
Proof. intros H. unfold after_fetch. rewrite H. reflexivity. Qed.

Lemma parse_or_fallback_unparsed (propertyData reply : JsValue) :
  (forall prediction, JSON_parse reply <> Ok prediction) ->
  parse_or_fallback propertyData reply = fallback_prediction propertyData.
Proof.
  intros H. unfold parse_or_fallback.
  destruct (JSON_parse reply) as [prediction | e]; [| reflexivity].
  exfalso. apply (H prediction). reflexivity.
Qed.

Lemma validate_incomplete (prediction : JsValue) :
  incomplete prediction = true ->
  validate prediction
  = Throw (if nullish prediction then TypeError else invalid_structure).
Proof.
  unfold incomplete, has_field, validate.
  destruct prediction as [| | b | n | s | items | fields];
    try reflexivity.
  cbn [get bind nullish].
  destruct (truthy _); [| reflexivity].
  destruct (truthy _); [| reflexivity].
  destruct (truthy _); [discriminate | reflexivity].
Qed.

Lemma validate_complete (prediction : JsValue) :
  incomplete prediction = false -> validate prediction = Ok prediction.
Proof.
  unfold incomplete, has_field, validate.
  destruct prediction as [| | b | n | s | items | fields];
    try discriminate.
  cbn [get bind].
  destruct (truthy _); [| discriminate].
  destruct (truthy _); [| discriminate].
  destruct (truthy _); [reflexivity | discriminate].
Qed.

(** A reply that parses as JSON with the three sub-fields is returned as
    it is: nothing else of it is looked at. *)
Lemma complete_reply_is_returned
  (w : World) (req : HttpRequest) (sent : ChatRequest)
  (reply prediction : JsValue) :
  snd (handler w req) = [sent] ->
  ai_response (fetch w sent) = Ok reply ->
  JSON_parse reply = Ok prediction ->
  incomplete prediction = false ->
  fst (handler w req) = Success prediction.
Proof.
  intros Hsent Hreply Hparse Hcomplete.
  destruct (handler_sent w req sent Hsent) as (pd & prompt & _ & _ & _ & ->).
  cbn [fst]. rewrite (after_fetch_reply pd reply _ Hreply).
  unfold parse_or_fallback. rewrite Hparse. cbn [bind].
  rewrite (validate_complete _ Hcomplete). reflexivity.
Qed.

(** The fallback of a described property is the estimate built from a
    positive integer base price. *)
Lemma fallback_prediction_described
  (propertyData : JsValue) (n : Z) (type town : string) :
  describes propertyData n type town ->
  (0 < n <= safe_integer)%Z ->
  inherited type = false ->
  inherited (Str.toLowerCase town) = false ->
  exists k,
    fallback_prediction propertyData = Ok (fallback_of (Num (inject_Z k)))
    /\ (200 <= k <= price_ceiling)%Z.
Proof.
  intros [(raw & Hraw & Harea) Htype Hcity] Hn Ht Hc.
  assert (Hstate : exists state, get propertyData "state" = Ok state).
  { destruct propertyData; try discriminate; eexists; reflexivity. }
  destruct Hstate as (state & Hstate).
  destruct (calculateBasePriceFromArea_bounds n type town state Hn Ht Hc)
    as (k & Hk & Hbounds).
  exists k. split; [| assumption].
  unfold fallback_prediction.
  rewrite Hraw. cbn [bind]. rewrite Harea. cbn [bind].
  rewrite Hcity, Hstate, Htype. cbn [bind]. rewrite Hk. reflexivity.
Qed.

Lemma bind_Ok {A B : Type} (r : result A) (k : A -> result B) (b : B) :
  bind r k = Ok b -> exists a, r = Ok a /\ k a = Ok b.
Proof.
  destruct r as [a | e]; [| discriminate].
  intros H. exists a. split; [reflexivity | assumption].
Qed.


End WithRuntime.

End HandlerFacts.

(** ** The prompt *)

Module PromptFacts.

Import HandlerFacts.

Lemma append_assoc (a b c : string) : (a ++ b) ++ c = a ++ b ++ c.
Proof.
  induction a as [| ch a IH]; simpl; [reflexivity |].
  rewrite IH. reflexivity.
Qed.

Lemma Infix_line (line : string) (ls : list string) :
  In line ls -> Str.Infix (line ++ Str.nl) (Str.unlines ls).
Proof.
  induction ls as [| l ls IH]; simpl; [intros [] |].
  intros [-> | H].
  - exists "", (Str.unlines ls). simpl. rewrite append_assoc. reflexivity.
  - destruct (IH H) as (before & after & E).
    exists (l ++ Str.nl ++ before), after. rewrite E.
    rewrite !append_assoc. reflexivity.
Qed.

Lemma Infix_after (prefix needle hay : string) :
  Str.Infix needle hay -> Str.Infix needle (prefix ++ hay).
Proof.
  intros (before & after & ->). exists (prefix ++ before), after.
  rewrite append_assoc. reflexivity.
Qed.

Section WithRuntime.

Context {rt : JsRuntime}.

Lemma bind_Throw {A B : Type}
  (r : result A) (k : A -> result B) (e : JsError) :
  bind r k = Throw e ->
  r = Throw e \/ exists a, r = Ok a /\ k a = Throw e.
Proof.
  destruct r as [a | e']; simpl.
  - intros H. right. exists a. split; [reflexivity | assumption].
  - intros [= ->]. left. reflexivity.
Qed.

Lemma get_throws (v : JsValue) (name : string) (e : JsError) :
  get v name = Throw e -> e = TypeError.
Proof. destruct v; simpl; congruence. Qed.

(** A conversion to a string throws nothing but a [TypeError]. *)
Lemma ToString_throws (v : JsValue) (e : JsError) :
  ToString v = Throw e -> e = TypeError.
Proof.
  revert e. induction v using JsValue_nested_ind; intros e; simpl;
    try discriminate.
  - destruct b; discriminate.
  - induction H as [| x rest Hx Hrest IH]; [discriminate |].
    intros Hthrow. apply bind_Throw in Hthrow.
    destruct Hthrow as [Hthrow | (s & _ & Hthrow)].
    + destruct x; try discriminate; apply Hx; assumption.
    + destruct rest as [| y rest']; [discriminate |].
      apply bind_Throw in Hthrow.
      destruct Hthrow as [Hthrow | (r & _ & Hthrow)]; [| discriminate].
      apply IH. assumption.
  - destruct (assoc "toString" fields); congruence.
Qed.

Lemma Array_join_throws
  (sep : string) (items : list JsValue) (e : JsError) :
  Array_join sep items = Throw e -> e = TypeError.
Proof.
  induction items as [| x rest IH]; simpl; [discriminate |].
  intros Hthrow. apply bind_Throw in Hthrow.
  destruct Hthrow as [Hthrow | (s & _ & Hthrow)].
  - unfold join_item in Hthrow.
    destruct x; try discriminate; eapply ToString_throws; eassumption.
  - destruct rest as [| y rest']; [discriminate |].
    apply bind_Throw in Hthrow.
    destruct Hthrow as [Hthrow | (r & _ & Hthrow)]; [| discriminate].
    apply IH. assumption.
Qed.

Lemma tpl_throws pd name e : tpl pd name = Throw e -> e = TypeError.
Proof.
  unfold tpl. intros H. apply bind_Throw in H.
  destruct H as [H | (v & _ & H)];
    [eapply get_throws | eapply ToString_throws]; eassumption.
Qed.

Lemma tpl_or_throws pd name alt e :
  tpl_or pd name alt = Throw e -> e = TypeError.
Proof.
  unfold tpl_or. intros H. apply bind_Throw in H.
  destruct H as [H | (v & _ & H)];
    [eapply get_throws | eapply ToString_throws]; eassumption.
Qed.

Lemma tpl_yes_no_throws pd name e :
  tpl_yes_no pd name = Throw e -> e = TypeError.
Proof.
  unfold tpl_yes_no. intros H. apply bind_Throw in H.
  destruct H as [H | (v & _ & H)]; [eapply get_throws; eassumption |].
  discriminate.
Qed.

Lemma tpl_amenities_throws pd e :
  tpl_amenities pd = Throw e -> e = TypeError.
Proof.
  unfold tpl_amenities. intros H. apply bind_Throw in H.
  destruct H as [H | (v & _ & H)]; [eapply get_throws; eassumption |].
  apply bind_Throw in H.
  destruct H as [H | (s & _ & H)]; [| discriminate].
  destruct v; simpl in H; try congruence.
  eapply Array_join_throws; eassumption.
Qed.

(** Building the prompt throws nothing but a [TypeError]. *)
Lemma build_prompt_throws pd e : build_prompt pd = Throw e -> e = TypeError.
Proof.
  unfold build_prompt. intros H.
  repeat (apply bind_Throw in H;
          destruct H as [H | (? & _ & H)];
          [ first [ eapply tpl_throws; eassumption
                  | eapply tpl_or_throws; eassumption
                  | eapply tpl_yes_no_throws; eassumption
                  | eapply tpl_amenities_throws; eassumption ] |]).
  discriminate.
Qed.

(** Without an array of amenities there is no prompt. *)
Lemma tpl_amenities_needs_array pd :
  (forall items, get pd "amenities" <> Ok (JArr items)) ->
  tpl_amenities pd = Throw TypeError.
Proof.
  intros H. unfold tpl_amenities.
  destruct (get pd "amenities") as [v | e] eqn:E.
  - destruct v; try reflexivity. exfalso. apply (H items). reflexivity.
  - rewrite (get_throws _ _ _ E). reflexivity.
Qed.

Lemma build_prompt_needs_amenities pd :
  (forall items, get pd "amenities" <> Ok (JArr items)) ->
  build_prompt pd = Throw TypeError.
Proof.
  intros H.
  destruct (build_prompt pd) as [prompt | e] eqn:E.
  - exfalso. unfold build_prompt in E.
    repeat (apply bind_Ok in E; destruct E as (? & ? & E)).
    rewrite (tpl_amenities_needs_array pd H) in *. discriminate.
  - rewrite (build_prompt_throws _ _ E). reflexivity.
Qed.

(** The prompt, once built, is the template with the twelve rendered
    fields. *)
Lemma build_prompt_Ok pd prompt :
  build_prompt pd = Ok prompt ->
  exists t b ba a c s z y pk f pf am,
    (tpl pd "propertyType" = Ok t /\ tpl pd "bedrooms" = Ok b
     /\ tpl pd "bathrooms" = Ok ba /\ tpl pd "area" = Ok a
     /\ tpl pd "city" = Ok c /\ tpl pd "state" = Ok s)
    /\ (tpl_or pd "zipcode" "Not provided" = Ok z
        /\ tpl_or pd "yearBuilt" "Not provided" = Ok y
        /\ tpl_or pd "parkingSpaces" "Not provided" = Ok pk)
    /\ (tpl_yes_no pd "furnished" = Ok f
        /\ tpl_yes_no pd "petFriendly" = Ok pf
        /\ tpl_amenities pd = Ok am)
    /\ prompt
       = Str.nl ++ Str.unlines
                     (prompt_intro
                      ++ detail_lines t b ba a c s z y pk f pf am
                      ++ prompt_outro).
Proof.
  unfold build_prompt. intros E.
  repeat (apply bind_Ok in E; destruct E as (? & ? & E)).
  injection E as <-.
  do 12 eexists. repeat split; eassumption || reflexivity.
Qed.

Lemma assoc_without_other
  (name k : string) (fields : list (string * JsValue)) :
  String.eqb name k = false ->
  assoc k (without name fields) = assoc k fields.
Proof.
  intros Hk. induction fields as [| [k' v] fields IH]; [reflexivity |].
  unfold without in *. cbn [filter fst].
  destruct (String.eqb name k') eqn:E; cbn [negb assoc].
  - apply String.eqb_eq in E. subst k'.
    rewrite String.eqb_sym, Hk. assumption.
  - rewrite IH. reflexivity.
Qed.

Lemma assoc_without_same
  (name : string) (fields : list (string * JsValue)) :
  assoc name (without name fields) = None.
Proof.
  induction fields as [| [k' v] fields IH]; [reflexivity |].
  unfold without in *. cbn [filter fst].
  destruct (String.eqb name k') eqn:E; cbn [negb assoc];
    [| rewrite E]; assumption.
Qed.

Lemma get_without_other
  (name k : string) (fields : list (string * JsValue)) :
  String.eqb name k = false ->
  get (JObj (without name fields)) k = get (JObj fields) k.
Proof.
  intros Hk. cbn [get].
  rewrite (assoc_without_other name k fields Hk). reflexivity.
Qed.

Lemma get_without_same
  (name : string) (fields : list (string * JsValue)) :
  get (JObj (without name fields)) name = Ok JUndefined.
Proof. cbn [get]. rewrite assoc_without_same. reflexivity. Qed.

(** A falsy [parkingSpaces] and none give the same prompt. *)
Lemma build_prompt_without_parking
  (fields : list (string * JsValue)) (v : JsValue) :
  get (JObj fields) "parkingSpaces" = Ok v ->
  truthy v = false ->
  build_prompt (JObj (without "parkingSpaces" fields))
  = build_prompt (JObj fields).
Proof.
  intros Hget Hfalsy.
  unfold build_prompt, tpl, tpl_or, tpl_yes_no, tpl_amenities.
  rewrite get_without_same, Hget.
  rewrite !(get_without_other "parkingSpaces" "propertyType") by reflexivity.
  rewrite !(get_without_other "parkingSpaces" "bedrooms") by reflexivity.
  rewrite !(get_without_other "parkingSpaces" "bathrooms") by reflexivity.
  rewrite !(get_without_other "parkingSpaces" "area") by reflexivity.
  rewrite !(get_without_other "parkingSpaces" "city") by reflexivity.
  rewrite !(get_without_other "parkingSpaces" "state") by reflexivity.
  rewrite !(get_without_other "parkingSpaces" "zipcode") by reflexivity.
  rewrite !(get_without_other "parkingSpaces" "yearBuilt") by reflexivity.
  rewrite !(get_without_other "parkingSpaces" "furnished") by reflexivity.
  rewrite !(get_without_other "parkingSpaces" "petFriendly") by reflexivity.
  rewrite !(get_without_other "parkingSpaces" "amenities") by reflexivity.
  cbn [bind]. unfold or_else. rewrite Hfalsy. reflexivity.
Qed.


Lemma detail_line_in_prompt (line : string)
  (t b ba a c s z y pk f pf am : string) :
  In line (detail_lines t b ba a c s z y pk f pf am) ->
  Str.Infix (line ++ Str.nl)
    (Str.nl ++ Str.unlines
                 (prompt_intro
                  ++ detail_lines t b ba a c s z y pk f pf am
                  ++ prompt_outro)).
Proof.
  intros H. apply Infix_after, Infix_line.
  apply in_or_app. right. apply in_or_app. left. assumption.
Qed.
End WithRuntime.
End PromptFacts.

(** ** The scenarios of the specification, run *)

Module ScenarioFacts.

Import Scenario.

(** A villa of 2000 sq ft in Miami: 2000 x 400 x 1.8. *)
Lemma villa_in_miami_estimate :
  fallback_prediction (json_of_form villa_in_miami)
  = Ok (fallback_of (Number.of_Z 1440000))
  /\ get (fallback_of (Number.of_Z 1440000)) "priceRange"
     = Ok (JObj [ ("min", JNum (Number.of_Z 1224000));
                  ("max", JNum (Number.of_Z 1656000)) ])
  /\ get (fallback_of (Number.of_Z 1440000)) "confidence"
     = Ok (JNum (Number.of_Z 75)).
Proof. repeat split; vm_compute; reflexivity. Qed.

(** An unknown type in an unknown city: 1000 x 250 x 1. *)
Lemma unknown_in_nowhereville_estimate :
  fallback_prediction (json_of_form unknown_in_nowhereville)
  = Ok (fallback_of (Number.of_Z 250000)).
Proof. vm_compute. reflexivity. Qed.

(** The products are binary64 products: 350 x 1.15 is a little less
    than 402.5 and rounds to 402. *)
Lemma max_of_350 : scaled (Number.of_Z 350) (115 # 100) = Number.of_Z 402.
Proof. vm_compute. reflexivity. Qed.

(** From the page the parking spaces arrive as text, and the text [0] is
    truthy: it is printed. *)
Lemma parking_zero_as_text :
  Str.occurs_in ("- Parking Spaces: 0" ++ Str.nl)
    (prompt_of (body_with "parkingSpaces" (JStr "0")
                  (json_of_form villa_in_miami)))
  = true.
Proof. vm_compute. reflexivity. Qed.

(** The prose is no JSON for the engine of the scenarios. *)
Lemma prose_unparsed (prediction : JsValue) :
  JSON_parse (JStr prose) <> Ok prediction.
Proof. vm_compute. discriminate. Qed.

End ScenarioFacts.

(** ** Substrings *)

Module StrFacts.




End StrFacts.

(** ** Exact rounding *)

Module RoundingFacts.

Import Binary64 Binary64Facts NumberFacts.
Local Open Scope Q_scope.

Lemma Qfloor_unique (z : Q) (k : Z) :
  inject_Z k <= z -> z < inject_Z k + 1 -> Qfloor z = k.
Proof.
  intros Hlo Hhi.
  pose proof (Qfloor_le z) as Fl. pose proof (Qlt_floor z) as Fh.
  rewrite inject_Z_plus in Fh. change (inject_Z 1) with 1 in Fh.
  assert (H1 : (Qfloor z < k + 1)%Z).
  { rewrite Zlt_Qlt, inject_Z_plus. change (inject_Z 1) with 1. lra. }
  assert (H2 : (k < Qfloor z + 1)%Z).
  { rewrite Zlt_Qlt, inject_Z_plus. change (inject_Z 1) with 1. lra. }
  lia.
Qed.

Lemma nearest_even_integer (x : Q) (k : Z) :
  x == inject_Z k -> nearest_even x = k.
Proof.
  intros Hx. unfold nearest_even.
  rewrite (Qfloor_comp _ _ Hx), Qfloor_Z.
  assert (E : Qcompare (x - inject_Z k) (1 # 2) = Lt).
  { apply -> Qlt_alt. rewrite Hx. unfold Qminus. rewrite Qplus_opp_r.
    reflexivity. }
  rewrite E. reflexivity.
Qed.

Lemma Qred_inject_Z (k : Z) : Qred (inject_Z k) = inject_Z k.
Proof.
  unfold Qred, inject_Z.
  pose proof (Z.ggcd_gcd k 1) as Hg.
  pose proof (Z.ggcd_correct_divisors k 1) as Hd.
  destruct (Z.ggcd k 1) as [g [a b]]. cbn [fst snd] in *.
  rewrite Z.gcd_1_r in Hg. subst g. destruct Hd as [Ha Hb].
  f_equal; [lia |]. replace b with 1%Z by lia. reflexivity.
Qed.

(** A positive integer below [2^53] has a significand of 53 bits. *)
Lemma round_pos_integer (k : Z) :
  (0 < k < 2 ^ 53)%Z -> round_pos (inject_Z k) == inject_Z k.
Proof.
  intros [Hk1 Hk2].
  assert (Hpos : 0 < inject_Z k).
  { change 0 with (inject_Z 0). rewrite <- Zlt_Qlt. assumption. }
  destruct (exponent_spec _ Hpos) as [Hlo Hhi].
  assert (He1 : (0 <= exponent (inject_Z k))%Z).
  { assert (H : (0 < exponent (inject_Z k) + 1)%Z); [| lia].
    apply Qpower_lt_compat_l_inv with (q := 2); [| reflexivity].
    apply Qle_lt_trans with (inject_Z k); [| assumption].
    change (2 ^ 0) with (inject_Z 1). rewrite <- Zle_Qle. lia. }
  assert (He2 : (exponent (inject_Z k) < 53)%Z).
  { apply Qpower_lt_compat_l_inv with (q := 2); [| reflexivity].
    apply Qle_lt_trans with (inject_Z k); [assumption |].
    change (2 ^ 53) with (inject_Z (2 ^ 53)). rewrite <- Zlt_Qlt. assumption. }
  unfold round_pos, ulp. rewrite Z.max_l by lia.
  set (e := exponent (inject_Z k)) in *.
  pose proof (two_pow_pos (e - 52)) as Hp.
  assert (Hx : inject_Z k / 2 ^ (e - 52) == inject_Z (k * 2 ^ (52 - e))).
  { unfold Qdiv. rewrite <- Qpower_opp.
    replace (- (e - 52))%Z with (52 - e)%Z by lia.
    rewrite inject_Z_mult, Zpower_Qpower by lia. reflexivity. }
  rewrite (nearest_even_integer _ _ Hx), <- Hx.
  field. lra.
Qed.

(** An integer below [2^53] in absolute value is a binary64 number. *)
Lemma round_integer (k : Z) :
  (- 2 ^ 53 < k < 2 ^ 53)%Z -> round (inject_Z k) = inject_Z k.
Proof.
  intros [Hk1 Hk2]. rewrite <- Qred_inject_Z at 2.
  unfold round. apply Qred_complete.
  destruct (Z.compare_spec k 0) as [-> | Hk | Hk].
  - reflexivity.
  - assert (E : Qcompare (inject_Z k) 0 = Lt).
    { apply -> Qlt_alt. change 0 with (inject_Z 0). rewrite <- Zlt_Qlt. lia. }
    rewrite E. change (- inject_Z k) with (inject_Z (- k)).
    rewrite round_pos_integer by lia. rewrite inject_Z_opp.
    apply Qopp_involutive.
  - assert (E : Qcompare (inject_Z k) 0 = Gt).
    { apply Qgt_alt. change 0 with (inject_Z 0). rewrite <- Zlt_Qlt. lia. }
    rewrite E. apply round_pos_integer. lia.
Qed.

Lemma overflows_small (r : Q) :
  - (2 * Number.ceiling) <= r <= 2 * Number.ceiling -> overflows r = false.
Proof.
  intros [H1 H2]. unfold overflows. apply not_true_is_false. intros H.
  apply Qle_bool_iff in H.
  assert (Hc : 2 * Number.ceiling < 2 ^ 1024).
  { unfold Qlt. vm_compute. reflexivity. }
  revert H. apply Qlt_not_le. apply Qle_lt_trans with (2 * Number.ceiling);
    [| assumption].
  apply Qabs_Qle_condition. split; assumption.
Qed.

(** An integer below [2^53] in absolute value is read exactly. *)
Lemma of_Z_exact (k : Z) :
  (- 2 ^ 53 < k < 2 ^ 53)%Z -> Number.of_Z k = Num (inject_Z k).
Proof.
  intros Hk. unfold Number.of_Z, Number.of_Q.
  rewrite (round_integer k Hk), overflows_small; [reflexivity |].
  change (2 * Number.ceiling)
    with (inject_Z 2000000000000000000000000000000).
  rewrite <- inject_Z_opp, <- !Zle_Qle. lia.
Qed.

(** The mirror image of [of_Q_bounds] below zero. *)
Lemma of_Q_bounds_neg (q : Q) :
  - Number.ceiling <= q <= - (1 # 2) ->
  exists r, Number.of_Q q = Num r /\ q * (1 + eps) <= r <= q * (1 - eps).
Proof.
  intros [Hlo Hhi].
  assert (Hsmall : 2 ^ (-1022) <= - q).
  { apply Qle_trans with (1 # 2); [| lra].
    change (1 # 2) with (2 ^ (-1)).
    apply Qpower_le_compat_l; [lia | discriminate]. }
  destruct (round_pos_error (- q) Hsmall) as [H1 H2].
  assert (E : Qcompare q 0 = Lt) by (apply -> Qlt_alt; lra).
  assert (Hr : round q == - round_pos (- q)).
  { unfold round. rewrite Qred_correct, E. reflexivity. }
  clear Hsmall.
  exists (round q). split; [| rewrite Hr; unfold eps in *; split; lra].
  unfold Number.of_Q. rewrite overflows_small; [reflexivity |].
  rewrite Hr. unfold eps, Number.ceiling in *. split; lra.
Qed.

(** [Math.round] is within a half of its argument. *)
Lemma round_half_up_bounds (y : Q) :
  y - (1 # 2) < inject_Z (Qfloor (y + (1 # 2))) <= y + (1 # 2).
Proof.
  pose proof (Qfloor_le (y + (1 # 2))) as Fl.
  pose proof (Qlt_floor (y + (1 # 2))) as Fh.
  rewrite inject_Z_plus in Fh. change (inject_Z 1) with 1 in Fh.
  split; lra.
Qed.

(** [Math.round(x * t)] for an integer [x] and the binary64 number [m]
    nearest to a rational [t]: an integer within a half of [x * t], up
    to the two roundings of the product. *)
Lemma round_mul_error (x : Z) (t m bound : Q) :
  3 # 4 <= t <= 7 # 2 ->
  t * (1 - eps) <= m <= t * (1 + eps) ->
  - bound <= inject_Z x * t <= bound ->
  bound <= 100000000000000000000000000000 ->
  exists z,
    Number.round (Number.mul (Num (inject_Z x)) (Num m)) = Num (inject_Z z)
    /\ inject_Z x * t - bound * Exact.drift - (1 # 2) < inject_Z z
    /\ inject_Z z <= inject_Z x * t + bound * Exact.drift + (1 # 2).
Proof.
  intros [HT1 HT2] [Hm1 Hm2] [HP1 HP2] Hmax.
  unfold eps, Exact.drift in *.
  destruct (Z.compare_spec x 0) as [-> | Hx0 | Hx0].
  - exists 0%Z.
    assert (E : Number.mul (Num (inject_Z 0)) (Num m) = Num 0).
    { cbn [Number.mul]. unfold Number.of_Q, round.
      assert (E : Qcompare (inject_Z 0 * m) 0 = Eq).
      { apply -> Qeq_alt. change (inject_Z 0) with 0. ring. }
      rewrite E. reflexivity. }
    rewrite E. split; [reflexivity |].
    change (inject_Z 0) with 0 in *. split; lra.
  - assert (Hx : inject_Z x <= - (1)).
    { change (- (1)) with (inject_Z (-1)). rewrite <- Zle_Qle. lia. }
    set (a := inject_Z x) in *.
    assert (Ham : a * t * (1 + (1 # 9007199254740992)) <= a * m
                  /\ a * m <= a * t * (1 - (1 # 9007199254740992))).
    { split; nra. }
    destruct Ham as [Ham1 Ham2].
    assert (Hat : a * t <= - (3 # 4)) by nra.
    destruct (of_Q_bounds_neg (a * m)) as (y & Ey & Hy1 & Hy2).
    { unfold Number.ceiling. split; lra. }
    unfold eps in *.
    exists (Qfloor (y + (1 # 2))). cbn [Number.mul Number.round].
    rewrite Ey. split; [reflexivity |].
    destruct (round_half_up_bounds y) as [F1 F2]. split; lra.
  - assert (Hx : 1 <= inject_Z x).
    { change 1 with (inject_Z 1). rewrite <- Zle_Qle. lia. }
    set (a := inject_Z x) in *.
    assert (Ham : a * t * (1 - (1 # 9007199254740992)) <= a * m
                  /\ a * m <= a * t * (1 + (1 # 9007199254740992))).
    { split; nra. }
    destruct Ham as [Ham1 Ham2].
    assert (Hat : 3 # 4 <= a * t) by nra.
    destruct (of_Q_bounds (a * m)) as (y & Ey & Hy1 & Hy2).
    { unfold Number.ceiling. split; lra. }
    unfold eps in *.
    exists (Qfloor (y + (1 # 2))). cbn [Number.mul Number.round].
    rewrite Ey. split; [reflexivity |].
    destruct (round_half_up_bounds y) as [F1 F2]. split; lra.
Qed.

(** A product with a falsy number is falsy, and so is what [Math.round]
    makes of a falsy number. *)
Lemma mul_falsy (a b : number) :
  Number.truthy a = false -> Number.truthy (Number.mul a b) = false.
Proof.
  destruct a as [| s | x]; [destruct b; reflexivity | discriminate |].
  cbn [Number.truthy]. intros Hx. apply negb_false_iff in Hx.
  destruct b as [| s | y]; [reflexivity | |].
  - cbn [Number.mul]. rewrite Hx. reflexivity.
  - cbn [Number.mul]. unfold Number.of_Q, round.
    assert (E : Qcompare (x * y) 0 = Eq).
    { apply -> Qeq_alt. apply Qeq_bool_iff in Hx. rewrite Hx. ring. }
    rewrite E. reflexivity.
Qed.

Lemma round_falsy (a : number) :
  Number.truthy a = false -> Number.truthy (Number.round a) = false.
Proof.
  destruct a as [| s | x]; [reflexivity | discriminate |].
  cbn [Number.truthy Number.round]. intros Hx. apply negb_false_iff in Hx.
  apply Qeq_bool_iff in Hx.
  assert (E : x + (1 # 2) == 1 # 2) by (rewrite Hx; ring).
  rewrite (Qfloor_comp _ _ E). reflexivity.
Qed.

(** From [2^1025] on a rational rounds beyond the largest finite
    number. *)
Lemma of_Q_overflow (q : Q) : 2 ^ 1025 <= q -> Number.of_Q q = Infinity false.
Proof.
  intros Hq.
  assert (Hb : 2 ^ 1025 == 2 * 2 ^ 1024).
  { change 1025%Z with (1 + 1024)%Z. rewrite two_pow_add. reflexivity. }
  pose proof (two_pow_pos 1024) as Hpos.
  assert (Hsmall : 2 ^ (-1022) <= q).
  { apply Qle_trans with (2 ^ 1025); [| assumption].
    apply Qpower_le_compat_l; [lia | discriminate]. }
  destruct (round_error q Hsmall) as [H1 _]. clear Hsmall.
  rewrite Hb in Hq. unfold eps in H1.
  set (b := 2 ^ 1024) in *.
  assert (Hr : b <= round q) by nra.
  unfold Number.of_Q, overflows. fold b.
  assert (H0 : 0 <= round q) by lra.
  rewrite (Qabs_pos _ H0).
  assert (E1 : Qle_bool b (round q) = true) by (apply Qle_bool_iff; exact Hr).
  assert (E2 : Qle_bool 0 (round q) = true) by (apply Qle_bool_iff; exact H0).
  rewrite E1, E2. reflexivity.
Qed.

Lemma mul_Infinity (x : Q) :
  0 < x -> Number.mul (Infinity false) (Num x) = Infinity false.
Proof.
  intros Hx. cbn [Number.mul]. unfold Number.is_zero, Number.is_negative.
  assert (E1 : Qeq_bool x 0 = false).
  { apply not_true_is_false. intros H. apply Qeq_bool_iff in H. lra. }
  assert (E2 : Qle_bool 0 x = true) by (apply Qle_bool_iff; lra).
  rewrite E1, E2. reflexivity.
Qed.

End RoundingFacts.

(** ** The heuristic in whole numbers *)

Module ExactFacts.

Import Binary64 Binary64Facts NumberFacts FallbackFacts RoundingFacts.
Local Open Scope Q_scope.

Lemma assoc_map {A B : Type} (f : A -> B) (k : string)
  (l : list (string * A)) :
  assoc k (map (fun kv => (fst kv, f (snd kv))) l) = option_map f (assoc k l).
Proof.
  induction l as [| [k' a] l IH]; [reflexivity |].
  cbn [map assoc fst snd]. destruct (String.eqb k k'); [reflexivity | exact IH].
Qed.

Lemma assoc_Forall {A : Type} (P : A -> Prop) (k : string)
  (l : list (string * A)) (a : A) :
  Forall P (map snd l) -> assoc k l = Some a -> P a.
Proof.
  intros H E. apply assoc_In in E. rewrite Forall_forall in H. auto.
Qed.

(** Every rate is a multiple of ten between 200 and 500. *)
Lemma rate_bounds (type : string) :
  (200 <= Exact.rate type <= 500)%Z /\ (Exact.rate type mod 10 = 0)%Z.
Proof.
  unfold Exact.rate.
  destruct (assoc type Exact.rates) as [r |] eqn:E.
  - apply (assoc_Forall
             (fun r => (200 <= r <= 500)%Z /\ (r mod 10 = 0)%Z) _ _ _) in E;
      [assumption |].
    repeat constructor; vm_compute; discriminate.
  - split; [lia | reflexivity].
Qed.

Lemma multiplier_tenths_bounds (city : string) :
  (10 <= Exact.multiplier_tenths city <= 35)%Z.
Proof.
  unfold Exact.multiplier_tenths.
  destruct (assoc _ Exact.tenths) as [t |] eqn:E.
  - apply (assoc_Forall (fun t => (10 <= t <= 35)%Z) _ _ _) in E;
      [assumption |].
    repeat constructor; vm_compute; discriminate.
  - lia.
Qed.

(** The division by ten of [Exact.price] leaves no remainder. *)
Lemma price_exact (n : Z) (type city : string) :
  (10 * Exact.price n type city
   = n * Exact.rate type * Exact.multiplier_tenths city)%Z.
Proof.
  destruct (rate_bounds type) as [_ Hmod]. unfold Exact.price.
  apply Z.mod_divide in Hmod; [| lia]. destruct Hmod as [c Hc].
  rewrite Hc.
  replace (n * (c * 10) * Exact.multiplier_tenths city)%Z
    with (n * c * Exact.multiplier_tenths city * 10)%Z by ring.
  rewrite Z.div_mul by lia. ring.
Qed.

(** Each square foot is worth at least 200. *)
Lemma price_step (n n' : Z) (type city : string) :
  (n <= n')%Z ->
  (200 * (n' - n) <= Exact.price n' type city - Exact.price n type city)%Z.
Proof.
  intros Hn.
  pose proof (price_exact n type city) as H1.
  pose proof (price_exact n' type city) as H2.
  pose proof (rate_bounds type) as [Hr _].
  pose proof (multiplier_tenths_bounds city) as Ht.
  set (r := Exact.rate type) in *.
  set (t := Exact.multiplier_tenths city) in *.
  assert (Hrt : (2000 <= r * t)%Z) by nia.
  assert (H : (10 * (Exact.price n' type city - Exact.price n type city)
               = (n' - n) * (r * t))%Z) by lia.
  nia.
Qed.

Section WithRuntime.

Context {rt : JsRuntime}.

(** Off the prototype the rate of the table is the whole number. *)
Lemma baseRate_exact (type : string) :
  inherited type = false ->
  ToNumber (member_or (literal_get baseRates type) (Number.of_Z 250))
  = Num (inject_Z (Exact.rate type)).
Proof.
  intros Ht.
  rewrite (member_or_own baseRates type _ 200 500
             eq_refl baseRates_within Ht).
  cbn [ToNumber].
  change baseRates
    with (map (fun kv => (fst kv, Number.of_Z (snd kv))) Exact.rates).
  rewrite assoc_map.
  pose proof (rate_bounds type) as [Hr _]. unfold Exact.rate in *.
  destruct (assoc type Exact.rates) as [r |]; cbn [option_map].
  - apply of_Z_exact. lia.
  - reflexivity.
Qed.

(** Off the prototype the multiplier of the table is the binary64
    number nearest to the tenths. *)
Lemma cityMultiplier_exact (town : string) :
  inherited (Str.toLowerCase town) = false ->
  exists m,
    ToNumber (member_or (literal_get cityMultipliers (Str.toLowerCase town))
                (Number.of_Z 1))
    = Num m
    /\ (Exact.multiplier_tenths town # 10) * (1 - eps) <= m
    /\ m <= (Exact.multiplier_tenths town # 10) * (1 + eps).
Proof.
  intros Hc.
  rewrite (member_or_own cityMultipliers _ _ 1 (35 # 10)
             eq_refl cityMultipliers_within Hc).
  cbn [ToNumber].
  change cityMultipliers
    with (map (fun kv => (fst kv, (fun t => Number.of_Q (t # 10)) (snd kv)))
            Exact.tenths).
  rewrite (assoc_map (fun t => Number.of_Q (t # 10))).
  pose proof (multiplier_tenths_bounds town) as Ht.
  assert (E : match option_map (fun t => Number.of_Q (t # 10))
                      (assoc (Str.toLowerCase town) Exact.tenths) with
              | Some n => n
              | None => Number.of_Z 1
              end
              = Number.of_Q (Exact.multiplier_tenths town # 10)).
  { unfold Exact.multiplier_tenths.
    destruct (assoc _ Exact.tenths); reflexivity. }
  rewrite E.
  apply of_Q_bounds. unfold Number.ceiling, Qle; cbn [Qnum Qden]. lia.
Qed.

(** Up to [Exact.area_bound] the two binary64 products and [Math.round]
    give the product of the whole numbers. *)
Lemma calculateBasePriceFromArea_exact
  (n : Z) (type town : string) (state : JsValue) :
  (- Exact.area_bound <= n <= Exact.area_bound)%Z ->
  inherited type = false ->
  inherited (Str.toLowerCase town) = false ->
  calculateBasePriceFromArea (Number.of_Z n) (JStr town) state (JStr type)
  = Ok (Num (inject_Z (Exact.price n type town))).
Proof.
  intros Hn Ht Hc. unfold Exact.area_bound in Hn.
  unfold calculateBasePriceFromArea.
  cbn [ToString bind toLowerCase_method].
  rewrite (baseRate_exact type Ht).
  destruct (cityMultiplier_exact town Hc) as (m & -> & Hm1 & Hm2).
  pose proof (rate_bounds type) as [Hr _].
  pose proof (multiplier_tenths_bounds town) as Htn.
  pose proof (price_exact n type town) as Hp.
  set (r := Exact.rate type) in *.
  set (t := Exact.multiplier_tenths town) in *.
  set (p := Exact.price n type town) in *.
  rewrite of_Z_exact by lia.
  assert (Hnr : (- 549755813888000 <= n * r <= 549755813888000)%Z) by nia.
  assert (E : Number.mul (Num (inject_Z n)) (Num (inject_Z r))
              = Num (inject_Z (n * r))).
  { apply (of_Z_exact (n * r)). lia. }
  rewrite E. set (x := (n * r)%Z) in *.
  assert (HP : inject_Z x * (t # 10) == inject_Z p).
  { unfold Qeq, Qmult, inject_Z. cbn [Qnum Qden]. lia. }
  destruct (round_mul_error x (t # 10) m 1924145348608000)
    as (z & -> & Hz1 & Hz2).
  - unfold Qle; cbn [Qnum Qden]. lia.
  - split; assumption.
  - rewrite HP. change 1924145348608000 with (inject_Z 1924145348608000).
    rewrite <- inject_Z_opp, <- !Zle_Qle. nia.
  - unfold Qle. vm_compute. discriminate.
  - rewrite HP in Hz1, Hz2. unfold Exact.drift in *.
    assert (H1 : (p < z + 1)%Z).
    { rewrite Zlt_Qlt, inject_Z_plus. change (inject_Z 1) with 1. lra. }
    assert (H2 : (z < p + 1)%Z).
    { rewrite Zlt_Qlt, inject_Z_plus. change (inject_Z 1) with 1. lra. }
    replace z with p by lia. reflexivity.
Qed.

(** An area that is zero or no number gives a base price that is zero
    or no number. *)
Lemma calculateBasePriceFromArea_falsy
  (a : number) (type town : string) (state : JsValue) :
  Number.truthy a = false ->
  exists basePrice,
    calculateBasePriceFromArea a (JStr town) state (JStr type)
    = Ok basePrice
    /\ Number.truthy basePrice = false.
Proof.
  intros Ha. unfold calculateBasePriceFromArea.
  cbn [ToString bind toLowerCase_method].
  eexists. split; [reflexivity |].
  apply round_falsy, mul_falsy, mul_falsy. assumption.
Qed.

(** An infinite area has an infinite base price. *)
Lemma calculateBasePriceFromArea_overflow
  (type town : string) (state : JsValue) :
  inherited type = false ->
  inherited (Str.toLowerCase town) = false ->
  calculateBasePriceFromArea (Infinity false) (JStr town) state (JStr type)
  = Ok (Infinity false).
Proof.
  intros Ht Hc. unfold calculateBasePriceFromArea.
  cbn [ToString bind toLowerCase_method].
  rewrite (baseRate_exact type Ht).
  destruct (cityMultiplier_exact town Hc) as (m & -> & Hm1 & _).
  pose proof (rate_bounds type) as [Hr _].
  pose proof (multiplier_tenths_bounds town) as Htn.
  rewrite mul_Infinity.
  - rewrite mul_Infinity; [reflexivity |].
    assert (H : 1 <= Exact.multiplier_tenths town # 10).
    { unfold Qle; cbn [Qnum Qden]. lia. }
    unfold eps in Hm1. nra.
  - change 0 with (inject_Z 0). rewrite <- Zlt_Qlt. lia.
Qed.

End WithRuntime.

(** [Math.round(k * f)] for a factor of [c] hundredths is an integer
    nearest to the exact [k * c / 100]. *)
Lemma scaled_nearest (k c : Z) :
  (- Exact.price_bound <= k <= Exact.price_bound)%Z ->
  (75 <= c <= 125)%Z ->
  exists z,
    scaled (Num (inject_Z k)) (c # 100) = Num (inject_Z z)
    /\ (- 50 <= 100 * z - c * k <= 50)%Z.
Proof.
  intros Hk Hc. unfold Exact.price_bound in Hk.
  destruct (of_Q_bounds (c # 100)) as (m & Em & Hm1 & Hm2).
  { unfold Number.ceiling, Qle; cbn [Qnum Qden]. lia. }
  assert (HP : inject_Z k * (c # 100) * 100 == inject_Z (c * k)).
  { unfold Qeq, Qmult, inject_Z. cbn [Qnum Qden]. lia. }
  assert (Hck : (- 2199023255552000 <= c * k <= 2199023255552000)%Z) by nia.
  assert (Hck1 : - (2199023255552000) <= inject_Z (c * k)).
  { change (- (2199023255552000)) with (inject_Z (- 2199023255552000)).
    rewrite <- Zle_Qle. lia. }
  assert (Hck2 : inject_Z (c * k) <= 2199023255552000).
  { change 2199023255552000 with (inject_Z 2199023255552000).
    rewrite <- Zle_Qle. lia. }
  destruct (round_mul_error k (c # 100) m 21990232555520)
    as (z & Ez & Hz1 & Hz2).
  - unfold Qle; cbn [Qnum Qden]. lia.
  - split; assumption.
  - split; lra.
  - unfold Qle. vm_compute. discriminate.
  - exists z. unfold scaled. rewrite Em, Ez. split; [reflexivity |].
    unfold Exact.drift in *.
    assert (H1 : (c * k < 100 * z + 51)%Z).
    { rewrite Zlt_Qlt, inject_Z_plus, (inject_Z_mult 100 z).
      change (inject_Z 100) with 100. change (inject_Z 51) with 51. lra. }
    assert (H2 : (100 * z < c * k + 51)%Z).
    { rewrite Zlt_Qlt, inject_Z_plus, (inject_Z_mult 100 z).
      change (inject_Z 100) with 100. change (inject_Z 51) with 51. lra. }
    lia.
Qed.

End ExactFacts.

(** ** [parseInt] on decimal numerals *)

Module ParseIntFacts.

Import RoundingFacts.

Lemma uint_value_acc (d : Decimal.uint) (acc : positive) :
  Z.pos (Pos.of_uint_acc d acc) = uint_value d (Z.pos acc).
Proof.
  revert acc. induction d; intros acc; cbn [Pos.of_uint_acc uint_value];
    try reflexivity; rewrite IHd; f_equal; lia.
Qed.

Lemma uint_value_of_uint (d : Decimal.uint) :
  Z.of_N (Pos.of_uint d) = uint_value d 0.
Proof.
  induction d; cbn [Pos.of_uint uint_value]; try reflexivity;
    try exact IHd; cbn [Z.of_N]; rewrite uint_value_acc; reflexivity.
Qed.

Lemma digits_prefix_stops (rest : string) (acc : option Z) :
  stops rest = true -> digits_prefix 10 rest acc = acc.
Proof.
  destruct rest as [| c rest]; [reflexivity |]. cbn [stops digits_prefix].
  destruct (digit_val 10 c); [discriminate | reflexivity].
Qed.

Lemma digits_prefix_uint (d : Decimal.uint) (rest : string) (acc : Z) :
  stops rest = true ->
  digits_prefix 10 (NilEmpty.string_of_uint d ++ rest) (Some acc)
  = Some (uint_value d acc).
Proof.
  intros Hrest. revert acc.
  induction d; intros acc; cbn [NilEmpty.string_of_uint append uint_value];
    [apply digits_prefix_stops; assumption | ..];
    cbn [digits_prefix]; rewrite <- IHd; reflexivity.
Qed.

Ltac eval_chars :=
  repeat match goal with
         | |- context [Str.is_space ?c] =>
             let b := eval vm_compute in (Str.is_space c) in
             change (Str.is_space c) with b
         | |- context [digit_val 10 ?c] =>
             let v := eval vm_compute in (digit_val 10 c) in
             change (digit_val 10 c) with v
         end.

Ltac run_parseInt :=
  unfold parseInt_text;
  cbn [NilEmpty.string_of_uint append Str.trim_start];
  eval_chars; cbv iota; cbn [digits_prefix]; eval_chars; cbv iota.

(** A numeral, with or without a minus sign, followed by something that
    is no digit, reads as its value. *)
Lemma parseInt_text_uint (d : Decimal.uint) (rest : string) :
  d <> Decimal.Nil ->
  stops rest = true ->
  (d = Decimal.D0 Decimal.Nil -> hex_mark rest = false) ->
  parseInt_text (NilEmpty.string_of_uint d ++ rest)
  = Number.of_Z (uint_value d 0)
  /\ parseInt_text (String "-" (NilEmpty.string_of_uint d ++ rest))
     = Number.of_Z (- uint_value d 0).
Proof.
  intros Hd Hrest Hzero.
  assert (Hdigits : forall l acc,
             digits_prefix 10 (NilEmpty.string_of_uint l ++ rest) (Some acc)
             = Some (uint_value l acc)).
  { intros l acc. apply digits_prefix_uint. assumption. }
  destruct d as [| l | l | l | l | l | l | l | l | l | l];
    [contradiction | ..];
    try (split; run_parseInt; rewrite Hdigits; reflexivity).
  destruct l as [| l | l | l | l | l | l | l | l | l | l];
    try (split; run_parseInt; rewrite Hdigits; reflexivity).
  specialize (Hzero eq_refl).
  destruct rest as [| c rest]; [split; reflexivity |].
  destruct c as [[] [] [] [] [] [] [] []];
    try discriminate Hzero; try discriminate Hrest;
    split; reflexivity.
Qed.

Lemma string_of_uint_nonnil (d : Decimal.uint) :
  d <> Decimal.Nil ->
  NilZero.string_of_uint d = NilEmpty.string_of_uint d.
Proof. destruct d; [contradiction | reflexivity ..]. Qed.

Lemma to_uint_value (p : positive) : uint_value (Pos.to_uint p) 0 = Z.pos p.
Proof.
  rewrite <- uint_value_of_uint, DecimalPos.Unsigned.of_to. reflexivity.
Qed.

Lemma parseInt_text_of_Z (n : Z) (rest : string) :
  stops rest = true ->
  (n = 0 -> hex_mark rest = false) ->
  parseInt_text (Str.of_Z n ++ rest) = Number.of_Z n.
Proof.
  intros Hrest Hzero. unfold Str.of_Z.
  destruct n as [| p | p]; cbn [Z.to_int NilZero.string_of_int].
  - apply (parseInt_text_uint (Decimal.D0 Decimal.Nil) rest);
      [discriminate | assumption | intros _; apply Hzero; reflexivity].
  - pose proof (DecimalPos.Unsigned.to_uint_nonnil p) as Hnil.
    pose proof (to_uint_value p) as Hval.
    rewrite (string_of_uint_nonnil _ Hnil), <- Hval.
    apply (parseInt_text_uint (Pos.to_uint p) rest); [assumption .. |].
    intros E. rewrite E in Hval. discriminate.
  - pose proof (DecimalPos.Unsigned.to_uint_nonnil p) as Hnil.
    pose proof (to_uint_value p) as Hval.
    rewrite (string_of_uint_nonnil _ Hnil).
    change (Z.neg p) with (- Z.pos p). rewrite <- Hval.
    apply (parseInt_text_uint (Pos.to_uint p) rest); [assumption .. |].
    intros E. rewrite E in Hval. discriminate.
Qed.

Lemma append_empty (s : string) : s ++ "" = s.
Proof. induction s as [| c s IH]; cbn; [| rewrite IH]; reflexivity. Qed.

(** An integer below [2^53] in absolute value prints as its decimal
    numeral. *)
Lemma Number_toString_integer {rt : JsRuntime} (n : Z) :
  - 2 ^ 53 < n < 2 ^ 53 ->
  Number_toString (Number.of_Z n) = Str.of_Z n.
Proof.
  intros Hn. rewrite of_Z_exact by assumption.
  unfold Number_toString, Number.as_Z. rewrite Qfloor_Z.
  assert (E : Qeq_bool (inject_Z n) (inject_Z n) = true).
  { apply Qeq_bool_iff. reflexivity. }
  rewrite E.
  assert (Hsmall : (Z.abs n <? exact_print_bound) = true).
  { apply Z.ltb_lt. unfold exact_print_bound. lia. }
  rewrite Hsmall. reflexivity.
Qed.

End ParseIntFacts.

(** ** More on the handler *)

Module MoreHandlerFacts.

Import FallbackFacts EstimateFacts HandlerFacts RoundingFacts ExactFacts.

Section WithRuntime.

Context {rt : JsRuntime}.



(** The handler, case by case. *)
Lemma handler_unfold (w : World) (req : HttpRequest) :
  handler w req
  = if String.eqb (method req) "OPTIONS" then (Preflight, [])
    else match req_json req with
         | Throw e => (Failure e, [])
         | Ok propertyData =>
             match build_prompt propertyData with
             | Throw e => (Failure e, [])
             | Ok prompt =>
                 (respond (after_fetch propertyData
                             (fetch w (chat_request w prompt))),
                  [chat_request w prompt])
             end
         end.
Proof.
  unfold handler, try_block, before_fetch.
  destruct (String.eqb (method req) "OPTIONS"); [reflexivity |].
  destruct (req_json req) as [propertyData | e]; [| reflexivity].
  cbn [bind]. destruct (build_prompt propertyData); reflexivity.
Qed.

Lemma ai_response_no_message (status : Z) (statusText : string)
  (data : JsValue) :
  response_ok status = true ->
  no_message data ->
  ai_response (FetchResolves status statusText (Ok data))
  = Throw invalid_response.
Proof.
  intros Hok (fields & -> & H). cbn [ai_response]. rewrite Hok.
  cbn [negb bind get].
  destruct H as [-> | [-> | (first & rest & -> & Hm)]]; try reflexivity.
  cbn [truthy negb get_index0 bind get]. rewrite Hm. reflexivity.
Qed.

(** The handler on the fallback path. *)
Lemma handler_fallback
  (w : World) (req : HttpRequest) (sent : ChatRequest)
  (propertyData reply : JsValue) :
  req_json req = Ok propertyData ->
  snd (handler w req) = [sent] ->
  ai_response (fetch w sent) = Ok reply ->
  (forall prediction, JSON_parse reply <> Ok prediction) ->
  fst (handler w req)
  = respond (let* estimate := fallback_prediction propertyData in
             validate estimate).
Proof.
  intros Hbody Hsent Hreply Hparse.
  destruct (handler_sent w req sent Hsent)
    as (pd & prompt & Hbody' & _ & _ & ->).
  rewrite Hbody in Hbody'. injection Hbody' as <-.
  cbn [fst]. rewrite (after_fetch_reply _ reply _ Hreply).
  rewrite (parse_or_fallback_unparsed _ _ Hparse). reflexivity.
Qed.

(** The fallback of a request whose type and city are strings, from the
    base price. *)
Lemma fallback_prediction_read
  (propertyData raw : JsValue) (a : number) (type town : string) :
  get propertyData "area" = Ok raw ->
  parseInt raw = Ok a ->
  get propertyData "propertyType" = Ok (JStr type) ->
  get propertyData "city" = Ok (JStr town) ->
  exists state,
    fallback_prediction propertyData
    = (let* basePrice :=
         calculateBasePriceFromArea a (JStr town) state (JStr type) in
       Ok (fallback_of basePrice)).
Proof.
  intros Hraw Harea Htype Hcity.
  assert (Hstate : exists state, get propertyData "state" = Ok state).
  { destruct propertyData; try discriminate; eexists; reflexivity. }
  destruct Hstate as (state & Hstate). exists state.
  unfold fallback_prediction.
  rewrite Hraw. cbn [bind]. rewrite Harea. cbn [bind].
  rewrite Hcity, Hstate, Htype. reflexivity.
Qed.

Lemma validate_falsy_price (basePrice : number) :
  Number.truthy basePrice = false ->
  validate (fallback_of basePrice) = Throw invalid_structure.
Proof.
  intros H. unfold validate, fallback_of.
  cbn [get assoc String.eqb Ascii.eqb Bool.eqb bind truthy].
  rewrite H. reflexivity.
Qed.

Lemma validate_truthy_price (basePrice : number) :
  Number.truthy basePrice = true ->
  validate (fallback_of basePrice) = Ok (fallback_of basePrice).
Proof.
  intros H. unfold validate, fallback_of.
  cbn [get assoc String.eqb Ascii.eqb Bool.eqb bind truthy].
  rewrite H. reflexivity.
Qed.

Lemma truthy_nonzero (k : Z) :
  k <> 0 -> Number.truthy (Num (inject_Z k)) = true.
Proof.
  intros Hk. cbn [Number.truthy]. unfold Number.is_zero.
  apply negb_true_iff, not_true_is_false. intros H.
  apply Qeq_bool_iff in H. unfold Qeq in H. cbn [Qnum Qden inject_Z] in H.
  lia.
Qed.

(** An estimate with a negative price is not well formed. *)
Lemma negative_price_ill_formed (k : Z) :
  k < 0 -> Estimate.well_formed (fallback_of (Num (inject_Z k))) = false.
Proof.
  intros Hk. unfold fallback_of, Estimate.well_formed, Estimate.num_field.
  cbn [get assoc String.eqb Ascii.eqb Bool.eqb].
  change (Number.of_Z 75) with (Num 75).
  assert (H : Estimate.positive (inject_Z k) = false).
  { unfold Estimate.positive. apply andb_false_iff. left.
    apply not_true_is_false. intros H. apply Qle_bool_iff in H.
    change 0%Q with (inject_Z 0) in H. rewrite <- Zle_Qle in H. lia. }
  rewrite H. reflexivity.
Qed.

End WithRuntime.

End MoreHandlerFacts.

(** ** More on the page *)

Module PageFacts.

Section WithRuntime.

Context {rt : JsRuntime}.

Lemma Array_join_strings (sep : string) (l : list string) :
  Array_join sep (map JStr l) = Ok (String.concat sep l).
Proof.
  induction l as [| a l IH]; [reflexivity |].
  cbn [map Array_join join_item ToString bind].
  destruct l as [| b l]; [reflexivity |].
  cbn [map] in *. rewrite IH. reflexivity.
Qed.

(** On a body that the page posts no conversion of the template throws,
    and each one is the string operation of [page_prompt]. *)
Lemma build_prompt_of_form (f : FormData) :
  build_prompt (json_of_form f) = Ok (page_prompt f).
Proof.
  unfold build_prompt, tpl, tpl_or, tpl_yes_no, tpl_amenities, json_of_form.
  cbn [get assoc String.eqb Ascii.eqb Bool.eqb bind ToString join_method].
  rewrite Array_join_strings. cbn [bind].
  unfold or_else, page_prompt, or_not_provided, yes_no.
  cbn [truthy].
  destruct (Str.is_empty (zipcode f)), (Str.is_empty (yearBuilt f)),
    (Str.is_empty (parkingSpaces f)), (furnished f), (petFriendly f);
    reflexivity.
Qed.

End WithRuntime.

Lemma filter_absent (amenity : string) (l : list string) :
  ~ In amenity l ->
  filter (fun a => negb (String.eqb a amenity)) l = l.
Proof.
  intros Hnot. apply forallb_filter_id. apply forallb_forall. intros a Ha.
  apply negb_true_iff, String.eqb_neq. intros ->. contradiction.
Qed.

Lemma with_amenities_same (prev : FormData) :
  with_amenities prev (amenities prev) = prev.
Proof. destruct prev. reflexivity. Qed.

End PageFacts.

(** ** The response as it is read *)

Module WireFacts.







End WireFacts.

(** * The claims *)

Section Claims.

Import FallbackFacts EstimateFacts HandlerFacts PromptFacts.

Context {rt : JsRuntime}.

(** C1, as the code has it.  When the remote call fails, by a transport
    error or a status that is not a success, the handler does not fall
    back: it answers with status 500 and the error, the message being
    [OpenAI API error: ] followed by the status text for a bad status. *)
Theorem C1_remote_failure_is_reported
  (w : World) (req : HttpRequest) (sent : ChatRequest) :
  snd (handler w req) = [sent] ->
  remote_call_fails (fetch w sent) = true ->
  fst (handler w req) = Failure (failure_of (fetch w sent))
  /\ status_of (fst (handler w req)) = 500.
Proof.
  intros Hsent Hfails.
  destruct (handler_sent w req sent Hsent) as (pd & prompt & _ & _ & _ & ->).
  cbn [fst]. rewrite (after_fetch_failed pd _ Hfails). split; reflexivity.
Qed.

(** C2, as the code has it.  A reply that parses as JSON but lacks
    [estimatedPrice], [priceRange] or [factors] is not treated like a
    parse failure: the validation throws and the handler answers with
    status 500 and [Invalid prediction structure received from AI] (a
    [TypeError] when the reply is the JSON [null]). *)
Theorem C2_incomplete_reply_is_rejected
  (w : World) (req : HttpRequest) (sent : ChatRequest)
  (reply prediction : JsValue) :
  snd (handler w req) = [sent] ->
  ai_response (fetch w sent) = Ok reply ->
  JSON_parse reply = Ok prediction ->
  incomplete prediction = true ->
  fst (handler w req)
  = Failure (if nullish prediction then TypeError else invalid_structure)
  /\ status_of (fst (handler w req)) = 500.
Proof.
  intros Hsent Hreply Hparse Hinc.
  destruct (handler_sent w req sent Hsent) as (pd & prompt & _ & _ & _ & ->).
  cbn [fst]. rewrite (after_fetch_reply pd reply _ Hreply).
  unfold parse_or_fallback. rewrite Hparse. cbn [bind].
  rewrite (validate_incomplete _ Hinc). split; reflexivity.
Qed.

(** C3, as the code has it.  For a request that describes a property of
    [n] sq ft, [n] a positive integer up to 2^53, whose type and
    lower-cased city do not name a member of [Object.prototype]: when
    the reply of the remote model is not parseable as JSON, the handler
    returns an estimate with [estimatedPrice > 0],
    [min <= estimatedPrice <= max], the confidence and every factor score
    within [0, 100], and exactly three comparable properties with a
    similarity within [0, 100]. *)
Theorem C3_fallback_estimate_is_well_formed
  (w : World) (req : HttpRequest) (sent : ChatRequest)
  (propertyData reply : JsValue) (n : Z) (type town : string) :
  req_json req = Ok propertyData ->
  describes propertyData n type town ->
  (0 < n <= safe_integer)%Z ->
  inherited type = false ->
  inherited (Str.toLowerCase town) = false ->
  snd (handler w req) = [sent] ->
  ai_response (fetch w sent) = Ok reply ->
  (forall prediction, JSON_parse reply <> Ok prediction) ->
  exists estimate,
    fst (handler w req) = Success estimate
    /\ Estimate.well_formed estimate = true.
Proof.
  intros Hbody Hdesc Hn Ht Hc Hsent Hreply Hparse.
  destruct (handler_sent w req sent Hsent)
    as (pd & prompt & Hbody' & _ & _ & ->).
  rewrite Hbody in Hbody'. injection Hbody' as <-.
  destruct (fallback_prediction_described _ n type town Hdesc Hn Ht Hc)
    as (k & Hk & Hk1 & Hk2).
  exists (fallback_of (Num (inject_Z k))).
  cbn [fst]. rewrite (after_fetch_reply _ reply _ Hreply).
  rewrite (parse_or_fallback_unparsed _ _ Hparse), Hk. cbn [bind].
  rewrite validate_fallback_of by lia. split; [reflexivity |].
  apply fallback_of_well_formed. lia.
Qed.

(** C4, as the code has it.  The page is where the six required fields
    are checked: when any of [propertyType], [bedrooms], [bathrooms],
    [area], [city], [state] is empty in the form, [handleSubmit] shows
    the [Missing information] toast and returns; it does not invoke the
    edge function, so no chat request is sent.  (The edge function
    itself checks none of them.) *)
Theorem C4_page_rejects_missing_fields
  (invoke : string -> FormData -> InvokeOutcome) (w : World) (f : FormData) :
  propertyType f = "" \/ bedrooms f = "" \/ bathrooms f = ""
  \/ area f = "" \/ city f = "" \/ state f = "" ->
  handleSubmit invoke f
  = [ PreventDefault;
      Toast "Missing information" "Please fill in all required fields." true ]
  /\ invocations (handleSubmit invoke f) = []
  /\ remote_calls w (handleSubmit invoke f) = [].
Proof.
  intros H.
  assert (Hmissing : missing_information f = true).
  { unfold missing_information, blank.
    destruct H as [H | [H | [H | [H | [H | H]]]]]; rewrite H;
      cbn [Str.is_empty orb]; rewrite ?orb_true_r; reflexivity. }
  unfold remote_calls, handleSubmit. rewrite Hmissing.
  repeat split; reflexivity.
Qed.

(** C5, where the code departs from it.  For a request that describes a
    property in a city whose lower-cased name is [constructor], a reply
    that is not parseable as JSON does not end in an estimate: the
    fallback computes [NaN] and the handler answers with status 500 and
    [Invalid prediction structure received from AI]. *)
Theorem C5_inherited_city_ends_in_error
  (w : World) (req : HttpRequest) (sent : ChatRequest)
  (propertyData reply : JsValue) (n : Z) (type town : string) :
  req_json req = Ok propertyData ->
  describes propertyData n type town ->
  Str.toLowerCase town = "constructor" ->
  snd (handler w req) = [sent] ->
  ai_response (fetch w sent) = Ok reply ->
  (forall prediction, JSON_parse reply <> Ok prediction) ->
  fallback_prediction propertyData = Ok (fallback_of NaN)
  /\ fst (handler w req) = Failure invalid_structure.
Proof.
  intros Hbody [(raw & Hraw & Harea) Htype Hcity] Htown Hsent Hreply Hparse.
  destruct (handler_sent w req sent Hsent)
    as (pd & prompt & Hbody' & _ & _ & ->).
  rewrite Hbody in Hbody'. injection Hbody' as <-.
  assert (Hstate : exists state, get propertyData "state" = Ok state).
  { destruct propertyData; try discriminate; eexists; reflexivity. }
  destruct Hstate as (state & Hstate).
  assert (Hfallback : fallback_prediction propertyData = Ok (fallback_of NaN)).
  { unfold fallback_prediction.
    rewrite Hraw. cbn [bind]. rewrite Harea. cbn [bind].
    rewrite Hcity, Hstate, Htype. cbn [bind].
    rewrite (calculateBasePriceFromArea_constructor _ _ _ _ Htown).
    reflexivity. }
  split; [assumption |].
  cbn [fst]. rewrite (after_fetch_reply _ reply _ Hreply).
  rewrite (parse_or_fallback_unparsed _ _ Hparse), Hfallback.
  reflexivity.
Qed.

(** C7, as the code has it.  The fallback path is taken when the reply
    of the remote model is not parseable as JSON (a failed remote call
    ends in status 500, see C1).  Two invocations of the handler on the
    same request that both take it, each in its own world, give the same
    response.  When the request describes a property of [n] sq ft, [n]
    a positive integer up to 2^33, whose type and lower-cased city do not
    name a member of [Object.prototype], that response is an estimate:
    its [estimatedPrice] is the exact product of the area, the rate and
    the multiplier, and its three comparable properties have for prices
    the integers nearest to 0.95, 1.08 and 0.92 of it, at 0.5, 0.8 and
    1.2 miles, with similarities 92, 88 and 85. *)
Theorem C7_fallback_is_deterministic
  (w1 w2 : World) (req : HttpRequest) (sent1 sent2 : ChatRequest)
  (reply1 reply2 : JsValue) :
  snd (handler w1 req) = [sent1] ->
  snd (handler w2 req) = [sent2] ->
  ai_response (fetch w1 sent1) = Ok reply1 ->
  ai_response (fetch w2 sent2) = Ok reply2 ->
  (forall prediction, JSON_parse reply1 <> Ok prediction) ->
  (forall prediction, JSON_parse reply2 <> Ok prediction) ->
  fst (handler w1 req) = fst (handler w2 req)
  /\ forall propertyData n type town,
       req_json req = Ok propertyData ->
       describes propertyData n type town ->
       0 < n <= 2 ^ 33 ->
       inherited type = false ->
       inherited (Str.toLowerCase town) = false ->
       exists estimate c1 c2 c3,
         fst (handler w1 req) = Success estimate
         /\ fst (handler w2 req) = Success estimate
         /\ get estimate "estimatedPrice"
            = Ok (JNum (Num (inject_Z (Exact.price n type town))))
         /\ get estimate "comparableProperties"
            = Ok (JArr
                    [ JObj [ ("price", JNum (Num (inject_Z c1)));
                             ("distance", JStr "0.5 miles");
                             ("similarity", JNum (Num 92)) ];
                      JObj [ ("price", JNum (Num (inject_Z c2)));
                             ("distance", JStr "0.8 miles");
                             ("similarity", JNum (Num 88)) ];
                      JObj [ ("price", JNum (Num (inject_Z c3)));
                             ("distance", JStr "1.2 miles");
                             ("similarity", JNum (Num 85)) ] ])
         /\ - 50 <= 100 * c1 - 95 * Exact.price n type town <= 50
         /\ - 50 <= 100 * c2 - 108 * Exact.price n type town <= 50
         /\ - 50 <= 100 * c3 - 92 * Exact.price n type town <= 50.
Proof.
  intros Hs1 Hs2 Hr1 Hr2 Hp1 Hp2.
  assert (Hsame : fst (handler w1 req) = fst (handler w2 req)).
  { destruct (handler_sent w1 req sent1 Hs1)
      as (pd & prompt & Hbody & _ & _ & _).
    rewrite (MoreHandlerFacts.handler_fallback w1 req sent1 pd reply1
               Hbody Hs1 Hr1 Hp1).
    rewrite (MoreHandlerFacts.handler_fallback w2 req sent2 pd reply2
               Hbody Hs2 Hr2 Hp2).
    reflexivity. }
  split; [exact Hsame |].
  intros propertyData n type town Hbody
    [(raw & Hraw & Harea) Htype Hcity] Hn Ht Hc.
  rewrite <- Hsame.
  rewrite (MoreHandlerFacts.handler_fallback w1 req sent1 _ reply1
             Hbody Hs1 Hr1 Hp1).
  destruct (MoreHandlerFacts.fallback_prediction_read
              _ _ _ _ _ Hraw Harea Htype Hcity) as (state & ->).
  change (2 ^ 33) with 8589934592 in Hn.
  rewrite (ExactFacts.calculateBasePriceFromArea_exact n type town state);
    [| unfold Exact.area_bound; lia | assumption ..].
  cbn [bind].
  set (k := Exact.price n type town).
  pose proof (ExactFacts.price_step 0 n type town ltac:(lia)) as Hstep.
  change (Exact.price 0 type town) with 0 in Hstep. fold k in Hstep.
  pose proof (ExactFacts.price_exact n type town) as Hexact. fold k in Hexact.
  pose proof (ExactFacts.rate_bounds type) as [Hrate _].
  pose proof (ExactFacts.multiplier_tenths_bounds town) as Htenths.
  assert (Hbound : - Exact.price_bound <= k <= Exact.price_bound).
  { unfold Exact.price_bound. change (2 ^ 44) with 17592186044416.
    set (r := Exact.rate type) in *.
    set (t := Exact.multiplier_tenths town) in *.
    assert (Hnr : 0 <= n * r <= 4294967296000) by nia.
    assert (H : 0 <= n * r * t <= 150323855360000) by nia.
    lia. }
  destruct (ExactFacts.scaled_nearest k 95 Hbound) as (c1 & E1 & H1); [lia |].
  destruct (ExactFacts.scaled_nearest k 108 Hbound) as (c2 & E2 & H2); [lia |].
  destruct (ExactFacts.scaled_nearest k 92 Hbound) as (c3 & E3 & H3); [lia |].
  exists (fallback_of (Num (inject_Z k))), c1, c2, c3.
  rewrite MoreHandlerFacts.validate_truthy_price
    by (apply MoreHandlerFacts.truthy_nonzero; lia).
  split; [reflexivity |]. split; [reflexivity |].
  unfold fallback_of, comparable.
  cbn [get assoc String.eqb Ascii.eqb Bool.eqb].
  rewrite E1, E2, E3.
  repeat split; reflexivity || lia.
Qed.


(** C9.  Whatever else the request body holds, when its [amenities] is
    absent or is not an array, building the prompt throws (a
    [TypeError]) and the handler answers with status 500, before any
    chat request is sent. *)
Theorem C9_amenities_is_required
  (w : World) (req : HttpRequest) (propertyData : JsValue) :
  String.eqb (method req) "OPTIONS" = false ->
  req_json req = Ok propertyData ->
  (forall items, get propertyData "amenities" <> Ok (JArr items)) ->
  build_prompt propertyData = Throw TypeError
  /\ handler w req = (Failure TypeError, [])
  /\ status_of (fst (handler w req)) = 500.
Proof.
  intros Hmethod Hbody Hamenities.
  pose proof (build_prompt_needs_amenities _ Hamenities) as Hthrow.
  assert (Hhandler : handler w req = (Failure TypeError, [])).
  { unfold handler, try_block, before_fetch.
    rewrite Hmethod, Hbody. cbn [bind]. rewrite Hthrow. reflexivity. }
  rewrite Hhandler. repeat split; assumption || reflexivity.
Qed.

(** C10.  When [parkingSpaces] is the number zero, the prompt reads
    [Parking Spaces: Not provided], and it is the very prompt of the
    same request without [parkingSpaces]. *)
Theorem C10_zero_parking_reads_not_provided
  (propertyData : JsValue) (prompt : string) (q : Q) :
  get propertyData "parkingSpaces" = Ok (JNum (Num q)) ->
  (q == 0)%Q ->
  build_prompt propertyData = Ok prompt ->
  Str.Infix ("- Parking Spaces: Not provided" ++ Str.nl) prompt
  /\ forall fields,
       propertyData = JObj fields ->
       build_prompt (JObj (without "parkingSpaces" fields)) = Ok prompt.
Proof.
  intros Hget Hzero Hprompt.
  assert (Hfalsy : truthy (JNum (Num q)) = false).
  { cbn. unfold Number.is_zero. apply negb_false_iff.
    apply Qeq_bool_iff. assumption. }
  split.
  - destruct (build_prompt_Ok _ _ Hprompt)
      as (t & b & ba & a & c & s & z & y & pk & f & pf & am
          & _ & (_ & _ & Hpk) & _ & ->).
    unfold tpl_or in Hpk. rewrite Hget in Hpk. cbn [bind] in Hpk.
    unfold or_else in Hpk. rewrite Hfalsy in Hpk. injection Hpk as <-.
    apply detail_line_in_prompt. cbn. auto 10.
  - intros fields ->.
    rewrite (build_prompt_without_parking fields _ Hget Hfalsy).
    assumption.
Qed.

End Claims.

(** ** The claims on the scenarios *)

Section ClaimsOnScenarios.

Import Scenario ScenarioFacts StrFacts.

(** C1, against the claim as stated.  The remote service answers 503
    for a villa of 2000 sq ft in Miami: the heuristic has an estimate for
    it, and the handler answers with the error instead. *)
Lemma C1_remote_failure_is_not_absorbed :
  remote_call_fails
    (fetch (world unavailable) (sent (world unavailable) villa_in_miami))
  = true
  /\ fallback_prediction (json_of_form villa_in_miami)
     = Ok (fallback_of (Number.of_Z 1440000))
  /\ fst (handler (world unavailable) (submit villa_in_miami))
     = Failure (Error "OpenAI API error: Service Unavailable").
Proof. repeat split; vm_compute; reflexivity. Qed.

(** The theorem of C1 on the same scenario. *)
Lemma C1_remote_failure_is_reported_witness :
  snd (handler (world unavailable) (submit villa_in_miami))
  = [ sent (world unavailable) villa_in_miami ]
  /\ fst (handler (world unavailable) (submit villa_in_miami))
     = Failure (failure_of unavailable)
  /\ status_of (fst (handler (world unavailable) (submit villa_in_miami)))
     = 500.
Proof.
  split; [vm_compute; reflexivity |].
  apply (C1_remote_failure_is_reported (rt := engine)
           (world unavailable) (submit villa_in_miami)
           (sent (world unavailable) villa_in_miami)).
  - vm_compute. reflexivity.
  - reflexivity.
Defined.

(** C2, against the claim as stated.  The reply is JSON without
    [priceRange]: the heuristic has an estimate for the villa, and the
    handler answers with the error instead. *)
Lemma C2_incomplete_reply_is_not_a_fallback :
  JSON_parse (JStr incomplete_text) = Ok incomplete_value
  /\ get incomplete_value "priceRange" = Ok JUndefined
  /\ fallback_prediction (json_of_form villa_in_miami)
     = Ok (fallback_of (Number.of_Z 1440000))
  /\ fst (handler (world (completion (JStr incomplete_text)))
            (submit villa_in_miami))
     = Failure (Error "Invalid prediction structure received from AI").
Proof. repeat split; vm_compute; reflexivity. Qed.

(** The theorem of C2 on the same scenario. *)
Lemma C2_incomplete_reply_is_rejected_witness :
  incomplete incomplete_value = true
  /\ fst (handler (world (completion (JStr incomplete_text)))
            (submit villa_in_miami))
     = Failure invalid_structure
  /\ status_of (fst (handler (world (completion (JStr incomplete_text)))
                       (submit villa_in_miami)))
     = 500.
Proof.
  split; [reflexivity |].
  apply (C2_incomplete_reply_is_rejected (rt := engine)
           (world (completion (JStr incomplete_text)))
           (submit villa_in_miami)
           (sent (world (completion (JStr incomplete_text))) villa_in_miami)
           (JStr incomplete_text) incomplete_value).
  - vm_compute. reflexivity.
  - reflexivity.
  - vm_compute. reflexivity.
  - reflexivity.
Defined.

(** C3, against the claim as stated.  The reply is JSON with the three
    sub-fields, a negative price, a range upside down, a factor of 250
    and no comparable property: the handler returns it as it is. *)
Lemma C3_remote_estimate_is_not_checked :
  JSON_parse (JStr careless_text) = Ok careless_value
  /\ fst (handler (world (completion (JStr careless_text)))
            (submit villa_in_miami))
     = Success careless_value
  /\ Estimate.well_formed careless_value = false.
Proof. repeat split; vm_compute; reflexivity. Qed.

(** The theorem of C3 on the villa, the remote model replying in prose. *)
Lemma C3_fallback_estimate_is_well_formed_witness :
  exists estimate,
    fst (handler (world (completion (JStr prose))) (submit villa_in_miami))
    = Success estimate
    /\ Estimate.well_formed estimate = true.
Proof.
  apply (C3_fallback_estimate_is_well_formed (rt := engine)
           (world (completion (JStr prose))) (submit villa_in_miami)
           (sent (world (completion (JStr prose))) villa_in_miami)
           (json_of_form villa_in_miami) (JStr prose)
           2000 "villa" "Miami").
  - reflexivity.
  - split; [exists (JStr "2000"); split | |]; vm_compute; reflexivity.
  - unfold safe_integer. lia.
  - reflexivity.
  - reflexivity.
  - vm_compute. reflexivity.
  - reflexivity.
  - intros prediction. vm_compute. discriminate.
Defined.

(** C4, against the claim as stated.  A client posts the villa without
    [propertyType] and the remote model replies in prose: the edge
    function sends its chat request all the same, reads the missing type
    as the default rate of 250 and returns 1000 x 250 x 1.8. *)
Lemma C4_function_defaults_a_missing_type :
  get (body_without "propertyType" (form "villa" "1000" "Miami"))
    "propertyType"
  = Ok JUndefined
  /\ fst (handler (world (completion (JStr prose)))
            (submit_without "propertyType" (form "villa" "1000" "Miami")))
     = Success (fallback_of (Number.of_Z 450000))
  /\ List.length
       (snd (handler (world (completion (JStr prose)))
               (submit_without "propertyType" (form "villa" "1000" "Miami"))))
     = 1%nat.
Proof. repeat split; vm_compute; reflexivity. Qed.

(** The theorem of C4 on the form of the villa with no type chosen. *)
Lemma C4_page_rejects_missing_fields_witness :
  handleSubmit (fun _ _ => InvokeThrows TypeError) (form "" "2000" "Miami")
  = [ PreventDefault;
      Toast "Missing information" "Please fill in all required fields." true ]
  /\ invocations
       (handleSubmit (fun _ _ => InvokeThrows TypeError)
          (form "" "2000" "Miami"))
     = []
  /\ remote_calls (world unavailable)
       (handleSubmit (fun _ _ => InvokeThrows TypeError)
          (form "" "2000" "Miami"))
     = [].
Proof.
  apply (C4_page_rejects_missing_fields (rt := engine)
           (fun _ _ => InvokeThrows TypeError) (world unavailable)
           (form "" "2000" "Miami")).
  left. reflexivity.
Defined.

(** The theorem of C5 on a house of 1000 sq ft in a city called
    Constructor, the remote model replying in prose. *)
Lemma C5_inherited_city_ends_in_error_witness :
  Str.toLowerCase "Constructor" = "constructor"
  /\ fallback_prediction (json_of_form house_in_constructor)
     = Ok (fallback_of NaN)
  /\ fst (handler (world (completion (JStr prose)))
            (submit house_in_constructor))
     = Failure invalid_structure.
Proof.
  split; [reflexivity |].
  apply (C5_inherited_city_ends_in_error (rt := engine)
           (world (completion (JStr prose))) (submit house_in_constructor)
           (sent (world (completion (JStr prose))) house_in_constructor)
           (json_of_form house_in_constructor) (JStr prose)
           1000 "house" "Constructor").
  - reflexivity.
  - split; [exists (JStr "1000"); split | |]; vm_compute; reflexivity.
  - reflexivity.
  - vm_compute. reflexivity.
  - reflexivity.
  - intros prediction. vm_compute. discriminate.
Defined.

(** C6, where the code departs from it.  A city or a type that names a
    member of [Object.prototype] is not in the tables and yet is not
    given the default: for a house of 1000 sq ft in a city called
    Constructor the code computes [NaN] where the formula gives
    1000 x 250 x 1 = 250,000, and likewise for 1000 sq ft of type
    [toString] in Nowhereville; the handler then answers with status
    500. *)
Theorem C6_inherited_keys_are_not_defaulted :
  (calculateBasePriceFromArea (Number.of_Z 1000)
     (JStr "Constructor") (JStr "FL") (JStr "house")
   = Ok NaN
   /\ Spec.estimatedPrice (Number.of_Z 1000) "house" "Constructor"
      = Number.of_Z 250000)
  /\ (calculateBasePriceFromArea (Number.of_Z 1000)
        (JStr "Nowhereville") (JStr "FL") (JStr "toString")
      = Ok NaN
      /\ Spec.estimatedPrice (Number.of_Z 1000) "toString" "Nowhereville"
         = Number.of_Z 250000)
  /\ fst (handler (world (completion (JStr prose)))
            (submit house_in_constructor))
     = Failure invalid_structure.
Proof. repeat split; vm_compute; reflexivity. Qed.

(** C7, against the claim as stated.  A forced failure of the remote
    call does not lead to the fallback: for the villa, which the
    heuristic can price, a remote service that answers 503 and one whose
    call is rejected both end in status 500, with no estimate, and the
    two responses are not even the same. *)
Lemma C7_forced_failure_gives_no_estimate :
  remote_call_fails
    (fetch (world unavailable) (sent (world unavailable) villa_in_miami))
  = true
  /\ remote_call_fails (fetch Cases.silent_world (sent Cases.silent_world villa_in_miami))
     = true
  /\ fallback_prediction (json_of_form villa_in_miami)
     = Ok (fallback_of (Number.of_Z 1440000))
  /\ fst (handler (world unavailable) (submit villa_in_miami))
     = Failure (Error "OpenAI API error: Service Unavailable")
  /\ fst (handler Cases.silent_world (submit villa_in_miami))
     = Failure (Error "network")
  /\ fst (handler (world unavailable) (submit villa_in_miami))
     <> fst (handler Cases.silent_world (submit villa_in_miami)).
Proof.
  repeat split; try (vm_compute; reflexivity).
  vm_compute. discriminate.
Qed.

(** The theorem of C7 on the villa in two worlds, whose keys and
    unparseable replies differ: 2000 x 400 x 1.8. *)
Lemma C7_fallback_is_deterministic_witness :
  fetch (world (completion (JStr prose)))
    (sent (world (completion (JStr prose))) villa_in_miami)
  <> fetch other_world (sent other_world villa_in_miami)
  /\ fst (handler (world (completion (JStr prose))) (submit villa_in_miami))
     = fst (handler other_world (submit villa_in_miami))
  /\ exists estimate c1 c2 c3,
       fst (handler (world (completion (JStr prose)))
              (submit villa_in_miami))
       = Success estimate
       /\ fst (handler other_world (submit villa_in_miami)) = Success estimate
       /\ get estimate "estimatedPrice"
          = Ok (JNum (Num (inject_Z (Exact.price 2000 "villa" "Miami"))))
       /\ get estimate "comparableProperties"
          = Ok (JArr
                  [ JObj [ ("price", JNum (Num (inject_Z c1)));
                           ("distance", JStr "0.5 miles");
                           ("similarity", JNum (Num 92)) ];
                    JObj [ ("price", JNum (Num (inject_Z c2)));
                           ("distance", JStr "0.8 miles");
                           ("similarity", JNum (Num 88)) ];
                    JObj [ ("price", JNum (Num (inject_Z c3)));
                           ("distance", JStr "1.2 miles");
                           ("similarity", JNum (Num 85)) ] ])
       /\ - 50 <= 100 * c1 - 95 * Exact.price 2000 "villa" "Miami" <= 50
       /\ - 50 <= 100 * c2 - 108 * Exact.price 2000 "villa" "Miami" <= 50
       /\ - 50 <= 100 * c3 - 92 * Exact.price 2000 "villa" "Miami" <= 50.
Proof.
  split; [vm_compute; discriminate |].
  destruct (C7_fallback_is_deterministic (rt := engine)
              (world (completion (JStr prose))) other_world
              (submit villa_in_miami)
              (sent (world (completion (JStr prose))) villa_in_miami)
              (sent other_world villa_in_miami)
              (JStr prose) (JStr "Estimate: about $1.4M"))
    as [Hsame Hestimate].
  - vm_compute. reflexivity.
  - vm_compute. reflexivity.
  - reflexivity.
  - reflexivity.
  - intros prediction. vm_compute. discriminate.
  - intros prediction. vm_compute. discriminate.
  - split; [exact Hsame |].
    apply (Hestimate (json_of_form villa_in_miami) 2000 "villa" "Miami").
    + reflexivity.
    + split; [exists (JStr "2000"); split | |]; vm_compute; reflexivity.
    + lia.
    + reflexivity.
    + reflexivity.
Defined.



(** The theorem of C9 on the villa posted without [amenities]. *)
Lemma C9_amenities_is_required_witness :
  build_prompt (body_without "amenities" villa_in_miami) = Throw TypeError
  /\ handler (world (completion (JStr prose)))
       (submit_without "amenities" villa_in_miami)
     = (Failure TypeError, [])
  /\ status_of
       (fst (handler (world (completion (JStr prose)))
               (submit_without "amenities" villa_in_miami)))
     = 500.
Proof.
  apply (C9_amenities_is_required (rt := engine)
           (world (completion (JStr prose)))
           (submit_without "amenities" villa_in_miami)
           (body_without "amenities" villa_in_miami)).
  - reflexivity.
  - reflexivity.
  - intros items. vm_compute. discriminate.
Defined.

(** The theorem of C10 on the villa posted with [parkingSpaces: 0]. *)
Lemma C10_zero_parking_reads_not_provided_witness :
  Str.Infix ("- Parking Spaces: Not provided" ++ Str.nl)
    (prompt_of
       (body_with "parkingSpaces" (JNum (Number.of_Z 0))
           (json_of_form villa_in_miami)))
  /\ forall fields,
       body_with "parkingSpaces" (JNum (Number.of_Z 0))
           (json_of_form villa_in_miami)
       = JObj fields ->
       build_prompt (JObj (without "parkingSpaces" fields))
       = Ok (prompt_of
               (body_with "parkingSpaces" (JNum (Number.of_Z 0))
                  (json_of_form villa_in_miami))).
Proof.
  apply (C10_zero_parking_reads_not_provided (rt := engine)
           (body_with "parkingSpaces" (JNum (Number.of_Z 0))
           (json_of_form villa_in_miami))
           (prompt_of
              (body_with "parkingSpaces" (JNum (Number.of_Z 0))
                 (json_of_form villa_in_miami)))
           0%Q).
  - vm_compute. reflexivity.
  - reflexivity.
  - vm_compute. reflexivity.
Defined.

End ClaimsOnScenarios.

(** * Further properties of the code *)

Section Further.

Import FallbackFacts EstimateFacts HandlerFacts PromptFacts.
Import RoundingFacts ExactFacts ParseIntFacts MoreHandlerFacts PageFacts.

Context {rt : JsRuntime}.


(** What the handler sends depends on the request and on the API key
    alone, not on what the remote service does; and it is one chat
    request at most. *)
Theorem handler_sends_once (w w' : World) (req : HttpRequest) :
  OPENAI_API_KEY w = OPENAI_API_KEY w' ->
  snd (handler w req) = snd (handler w' req)
  /\ (List.length (snd (handler w req)) <= 1)%nat.
Proof.
  intros Hkey. rewrite !handler_unfold.
  destruct (String.eqb (method req) "OPTIONS"); [split; auto |].
  destruct (req_json req) as [propertyData | e]; [| split; auto].
  destruct (build_prompt propertyData) as [prompt | e]; [| split; auto].
  cbn [snd]. unfold chat_request. rewrite Hkey. split; auto.
Qed.

(** A success status of the remote service whose body has no [choices],
    an empty [choices] or a first choice without [message] is answered
    with status 500 and [Invalid response from OpenAI]: the heuristic is
    not used. *)
Theorem reply_without_message_is_rejected
  (w : World) (req : HttpRequest) (sent : ChatRequest)
  (status : Z) (statusText : string) (data : JsValue) :
  snd (handler w req) = [sent] ->
  fetch w sent = FetchResolves status statusText (Ok data) ->
  response_ok status = true ->
  no_message data ->
  fst (handler w req) = Failure invalid_response.
Proof.
  intros Hsent Hfetch Hok Hdata.
  destruct (handler_sent w req sent Hsent) as (pd & prompt & _ & _ & _ & ->).
  cbn [fst]. unfold after_fetch.
  rewrite Hfetch, (ai_response_no_message _ _ _ Hok Hdata). reflexivity.
Qed.

(** On the fallback path an area that [parseInt] reads as zero or as no
    number at all (an empty text, a text that starts with no digit) does
    not get an estimate: the base price is falsy, the validation throws
    and the handler answers with status 500 and [Invalid prediction
    structure received from AI]. *)
Theorem unreadable_area_is_rejected
  (w : World) (req : HttpRequest) (sent : ChatRequest)
  (propertyData reply raw : JsValue) (a : number) (type town : string) :
  req_json req = Ok propertyData ->
  get propertyData "area" = Ok raw ->
  parseInt raw = Ok a ->
  Number.truthy a = false ->
  get propertyData "propertyType" = Ok (JStr type) ->
  get propertyData "city" = Ok (JStr town) ->
  snd (handler w req) = [sent] ->
  ai_response (fetch w sent) = Ok reply ->
  (forall prediction, JSON_parse reply <> Ok prediction) ->
  fst (handler w req) = Failure invalid_structure.
Proof.
  intros Hbody Hraw Harea Ha Htype Hcity Hsent Hreply Hparse.
  rewrite (handler_fallback w req sent _ reply Hbody Hsent Hreply Hparse).
  destruct (fallback_prediction_read _ _ _ _ _ Hraw Harea Htype Hcity)
    as (state & ->).
  destruct (calculateBasePriceFromArea_falsy a type town state Ha)
    as (basePrice & -> & Hfalsy).
  cbn [bind]. rewrite (validate_falsy_price _ Hfalsy). reflexivity.
Qed.

(** For an area of up to 2^40 sq ft, of either sign, and a type and a
    city off the prototype, the base price of the fallback is the
    product of the area, the rate and the multiplier, exactly: the two
    binary64 products and [Math.round] lose nothing, and the product is
    a whole number. *)
Theorem fallback_price_is_exact
  (propertyData : JsValue) (n : Z) (type town : string) :
  describes propertyData n type town ->
  - Exact.area_bound <= n <= Exact.area_bound ->
  inherited type = false ->
  inherited (Str.toLowerCase town) = false ->
  fallback_prediction propertyData
  = Ok (fallback_of (Num (inject_Z (Exact.price n type town))))
  /\ 10 * Exact.price n type town
     = n * Exact.rate type * Exact.multiplier_tenths town.
Proof.
  intros [(raw & Hraw & Harea) Htype Hcity] Hn Ht Hc.
  split; [| apply price_exact].
  destruct (fallback_prediction_read _ _ _ _ _ Hraw Harea Htype Hcity)
    as (state & ->).
  rewrite (calculateBasePriceFromArea_exact n type town state Hn Ht Hc).
  reflexivity.
Qed.

(** The base price grows with the area, by 200 at least for each square
    foot. *)
Theorem base_price_grows_with_area
  (n n' : Z) (type town : string) (state : JsValue) :
  - Exact.area_bound <= n -> n <= n' -> n' <= Exact.area_bound ->
  inherited type = false ->
  inherited (Str.toLowerCase town) = false ->
  exists k k',
    calculateBasePriceFromArea (Number.of_Z n) (JStr town) state (JStr type)
    = Ok (Num (inject_Z k))
    /\ calculateBasePriceFromArea (Number.of_Z n') (JStr town) state
         (JStr type)
       = Ok (Num (inject_Z k'))
    /\ 200 * (n' - n) <= k' - k.
Proof.
  intros Hlo Hle Hhi Ht Hc.
  exists (Exact.price n type town), (Exact.price n' type town).
  split; [| split].
  - apply calculateBasePriceFromArea_exact; [lia | assumption ..].
  - apply calculateBasePriceFromArea_exact; [lia | assumption ..].
  - apply price_step. assumption.
Qed.

(** For a base price of up to 2^44, of either sign, the bounds of the
    price range and the prices of the three comparable properties are
    integers nearest to 0.85, 1.15, 0.95, 1.08 and 0.92 of it: each one
    is within a half of the exact product. *)
Theorem derived_prices_are_nearest_integers (k : Z) :
  - Exact.price_bound <= k <= Exact.price_bound ->
  exists lo hi c1 c2 c3,
    get (fallback_of (Num (inject_Z k))) "priceRange"
    = Ok (JObj [ ("min", JNum (Num (inject_Z lo)));
                 ("max", JNum (Num (inject_Z hi))) ])
    /\ get (fallback_of (Num (inject_Z k))) "comparableProperties"
       = Ok (JArr [ comparable (Num (inject_Z c1)) "0.5 miles" 92;
                    comparable (Num (inject_Z c2)) "0.8 miles" 88;
                    comparable (Num (inject_Z c3)) "1.2 miles" 85 ])
    /\ - 50 <= 100 * lo - 85 * k <= 50
    /\ - 50 <= 100 * hi - 115 * k <= 50
    /\ - 50 <= 100 * c1 - 95 * k <= 50
    /\ - 50 <= 100 * c2 - 108 * k <= 50
    /\ - 50 <= 100 * c3 - 92 * k <= 50.
Proof.
  intros Hk.
  destruct (scaled_nearest k 85 Hk) as (lo & Elo & Hlo); [lia |].
  destruct (scaled_nearest k 115 Hk) as (hi & Ehi & Hhi); [lia |].
  destruct (scaled_nearest k 95 Hk) as (c1 & E1 & H1); [lia |].
  destruct (scaled_nearest k 108 Hk) as (c2 & E2 & H2); [lia |].
  destruct (scaled_nearest k 92 Hk) as (c3 & E3 & H3); [lia |].
  exists lo, hi, c1, c2, c3. unfold fallback_of.
  cbn [get assoc String.eqb Ascii.eqb Bool.eqb].
  rewrite Elo, Ehi, E1, E2, E3. repeat split; lia || reflexivity.
Qed.

(** For a base price of 200 or more the prices of the fallback are in
    the order the factors suggest: the three comparable properties lie
    strictly within the price range, and the estimate strictly between
    the comparable at 0.95 and the one at 1.08. *)
Theorem comparables_lie_within_the_range (k : Z) :
  200 <= k <= price_ceiling ->
  exists lo c3 c1 c2 hi,
    scaled (Num (inject_Z k)) (85 # 100) = Num (inject_Z lo)
    /\ scaled (Num (inject_Z k)) (92 # 100) = Num (inject_Z c3)
    /\ scaled (Num (inject_Z k)) (95 # 100) = Num (inject_Z c1)
    /\ scaled (Num (inject_Z k)) (108 # 100) = Num (inject_Z c2)
    /\ scaled (Num (inject_Z k)) (115 # 100) = Num (inject_Z hi)
    /\ lo < c3 < c1 /\ c1 < k < c2 /\ c2 < hi.
Proof.
  intros Hk.
  assert (Hk' : 1 <= k <= price_ceiling) by lia.
  assert (Hq : (200 <= inject_Z k)%Q).
  { change 200%Q with (inject_Z 200). rewrite <- Zle_Qle. lia. }
  destruct (scaled_spec k (85 # 100) Hk') as (lo & Elo & Hlo1 & Hlo2);
    [split; lra |].
  destruct (scaled_spec k (92 # 100) Hk') as (c3 & E3 & H31 & H32);
    [split; lra |].
  destruct (scaled_spec k (95 # 100) Hk') as (c1 & E1 & H11 & H12);
    [split; lra |].
  destruct (scaled_spec k (108 # 100) Hk') as (c2 & E2 & H21 & H22);
    [split; lra |].
  destruct (scaled_spec k (115 # 100) Hk') as (hi & Ehi & Hhi1 & Hhi2);
    [split; lra |].
  exists lo, c3, c1, c2, hi.
  repeat (split; [assumption |]).
  rewrite !Zlt_Qlt. repeat split; lra.
Qed.

(** A negative area is priced: on the fallback path the handler answers
    with status 200 and an estimate whose price is the exact product, 200
    below zero at least for each square foot, and whose range is upside
    down, its [max] below the price and its [min] above. *)
Theorem negative_area_is_priced
  (w : World) (req : HttpRequest) (sent : ChatRequest)
  (propertyData reply : JsValue) (n : Z) (type town : string) :
  req_json req = Ok propertyData ->
  describes propertyData n type town ->
  - 2 ^ 33 <= n < 0 ->
  inherited type = false ->
  inherited (Str.toLowerCase town) = false ->
  snd (handler w req) = [sent] ->
  ai_response (fetch w sent) = Ok reply ->
  (forall prediction, JSON_parse reply <> Ok prediction) ->
  exists k lo hi,
    fst (handler w req) = Success (fallback_of (Num (inject_Z k)))
    /\ k = Exact.price n type town
    /\ k <= 200 * n
    /\ scaled (Num (inject_Z k)) (85 # 100) = Num (inject_Z lo)
    /\ scaled (Num (inject_Z k)) (115 # 100) = Num (inject_Z hi)
    /\ hi < k < lo
    /\ Estimate.well_formed (fallback_of (Num (inject_Z k))) = false.
Proof.
  intros Hbody [(raw & Hraw & Harea) Htype Hcity] Hn Ht Hc Hsent Hreply Hparse.
  set (k := Exact.price n type town).
  pose proof (price_step n 0 type town ltac:(lia)) as Hstep.
  change (Exact.price 0 type town) with 0 in Hstep. fold k in Hstep.
  pose proof (price_exact n type town) as Hexact. fold k in Hexact.
  pose proof (rate_bounds type) as [Hr _].
  pose proof (multiplier_tenths_bounds town) as Htn.
  assert (Hbound : - Exact.price_bound <= k <= Exact.price_bound).
  { unfold Exact.price_bound. change (2 ^ 33) with 8589934592 in Hn.
    change (2 ^ 44) with 17592186044416.
    set (r := Exact.rate type) in *.
    set (t := Exact.multiplier_tenths town) in *.
    assert (Hnr : - 4294967296000 <= n * r <= 0) by nia.
    assert (H : - 150323855360000 <= n * r * t <= 0) by nia.
    lia. }
  destruct (scaled_nearest k 85 Hbound) as (lo & Elo & Hlo); [lia |].
  destruct (scaled_nearest k 115 Hbound) as (hi & Ehi & Hhi); [lia |].
  exists k, lo, hi.
  split; [| repeat split; try assumption; try lia].
  - rewrite (handler_fallback w req sent _ reply Hbody Hsent Hreply Hparse).
    destruct (fallback_prediction_read _ _ _ _ _ Hraw Harea Htype Hcity)
      as (state & ->).
    rewrite (calculateBasePriceFromArea_exact n type town state);
      [| unfold Exact.area_bound; lia | assumption ..].
    cbn [bind]. fold k.
    rewrite validate_truthy_price; [reflexivity |].
    apply truthy_nonzero. lia.
  - apply negative_price_ill_formed. lia.
Qed.

(** An area of 2^1025 sq ft or more is beyond the numbers of the engine
    and reads as [Infinity].  On the fallback path the base price is
    [Infinity], which is truthy: the validation passes and the handler
    answers with status 200; [JSON.stringify] writes the infinities as
    [null], so that the reader gets an estimate whose [estimatedPrice],
    range and comparable prices are all [null]. *)
Theorem huge_area_is_answered_with_null
  (w : World) (req : HttpRequest) (sent : ChatRequest)
  (propertyData reply : JsValue) (n : Z) (type town : string) :
  req_json req = Ok propertyData ->
  describes propertyData n type town ->
  2 ^ 1025 <= n ->
  inherited type = false ->
  inherited (Str.toLowerCase town) = false ->
  snd (handler w req) = [sent] ->
  ai_response (fetch w sent) = Ok reply ->
  (forall prediction, JSON_parse reply <> Ok prediction) ->
  status_of (fst (handler w req)) = 200
  /\ received (fst (handler w req))
     = Some
         (JObj
            [ ("prediction",
                JObj
                  [ ("estimatedPrice", JNull);
                    ("priceRange",
                      JObj [ ("min", JNull); ("max", JNull) ]);
                    ("confidence", JNum (Num 75));
                    ("factors",
                      JObj [ ("location", JNum (Num 80));
                             ("size", JNum (Num 85));
                             ("bedrooms", JNum (Num 75));
                             ("bathrooms", JNum (Num 75));
                             ("amenities", JNum (Num 70));
                             ("market", JNum (Num 80)) ]);
                    ("comparableProperties",
                      JArr [ JObj [ ("price", JNull);
                                    ("distance", JStr "0.5 miles");
                                    ("similarity", JNum (Num 92)) ];
                             JObj [ ("price", JNull);
                                    ("distance", JStr "0.8 miles");
                                    ("similarity", JNum (Num 88)) ];
                             JObj [ ("price", JNull);
                                    ("distance", JStr "1.2 miles");
                                    ("similarity", JNum (Num 85)) ] ]) ]) ]).
Proof.
  intros Hbody [(raw & Hraw & Harea) Htype Hcity] Hn Ht Hc Hsent Hreply Hparse.
  assert (Hinf : Number.of_Z n = Infinity false).
  { apply RoundingFacts.of_Q_overflow.
    change (2 ^ 1025)%Q with (inject_Z (2 ^ 1025)).
    rewrite <- Zle_Qle. assumption. }
  rewrite Hinf in Harea.
  assert (H : fst (handler w req) = Success (fallback_of (Infinity false))).
  { rewrite (MoreHandlerFacts.handler_fallback w req sent _ reply
               Hbody Hsent Hreply Hparse).
    destruct (MoreHandlerFacts.fallback_prediction_read
                _ _ _ _ _ Hraw Harea Htype Hcity) as (state & ->).
    rewrite (ExactFacts.calculateBasePriceFromArea_overflow
               type town state Ht Hc).
    reflexivity. }
  rewrite H. split; [reflexivity | vm_compute; reflexivity].
Qed.

(** The handler does not check that the API key is set: without one it
    sends the chat request all the same, to the chat-completion
    endpoint, with [Bearer undefined] for its authorization. *)
Theorem missing_key_is_not_checked
  (w : World) (req : HttpRequest) (propertyData : JsValue) (prompt : string) :
  OPENAI_API_KEY w = None ->
  String.eqb (method req) "OPTIONS" = false ->
  req_json req = Ok propertyData ->
  build_prompt propertyData = Ok prompt ->
  exists sent,
    snd (handler w req) = [sent]
    /\ url sent = "https://api.openai.com/v1/chat/completions"
    /\ authorization sent = "Bearer undefined"
    /\ messages sent
       = [ {| role := "system"; content := system_instruction |};
           {| role := "user"; content := prompt |} ]
    /\ fst (handler w req) = respond (after_fetch propertyData (fetch w sent)).
Proof.
  intros Hkey Hmethod Hbody Hprompt.
  exists (chat_request w prompt).
  rewrite handler_unfold, Hmethod, Hbody, Hprompt.
  unfold chat_request. rewrite Hkey. repeat split.
Qed.

(** [parseInt] reads the decimal integer a text starts with and ignores
    what follows it, from the first character that is no digit on: a
    fraction, an exponent, a unit.  (A zero followed by [x] starts a
    hexadecimal numeral instead.) *)
Theorem parseInt_reads_leading_integer (n : Z) (rest : string) :
  stops rest = true ->
  (n = 0 -> hex_mark rest = false) ->
  parseInt (JStr (Str.of_Z n ++ rest)) = Ok (Number.of_Z n).
Proof.
  intros Hrest Hzero. unfold parseInt. cbn [ToString bind].
  rewrite (parseInt_text_of_Z n rest Hrest Hzero). reflexivity.
Qed.

(** An area that is an integer below 2^53 in absolute value is read as
    itself, whether the request has it as a JSON number or as its
    decimal numeral. *)
Theorem integer_area_round_trip (n : Z) :
  - safe_integer < n < safe_integer ->
  parseInt (JNum (Number.of_Z n)) = Ok (Number.of_Z n)
  /\ parseInt (JStr (Str.of_Z n)) = Ok (Number.of_Z n).
Proof.
  intros Hn. unfold safe_integer in Hn.
  assert (H : parseInt_text (Str.of_Z n) = Number.of_Z n).
  { rewrite <- (append_empty (Str.of_Z n)).
    apply parseInt_text_of_Z; reflexivity. }
  unfold parseInt. cbn [ToString bind].
  rewrite (Number_toString_integer n Hn), H. split; reflexivity.
Qed.

(** The heuristic reads three fields of the request and no other: two
    request bodies with the same [area], [city] and [propertyType] get
    the same fallback, whatever their bedrooms, bathrooms, state, year
    or amenities. *)
Theorem fallback_reads_three_fields (fields fields' : list (string * JsValue)) :
  assoc "area" fields = assoc "area" fields' ->
  assoc "city" fields = assoc "city" fields' ->
  assoc "propertyType" fields = assoc "propertyType" fields' ->
  fallback_prediction (JObj fields) = fallback_prediction (JObj fields').
Proof.
  intros Harea Hcity Htype. unfold fallback_prediction.
  cbn [get bind]. rewrite Harea, Hcity, Htype.
  unfold calculateBasePriceFromArea. reflexivity.
Qed.

(** Whatever the form holds, the body the page posts gets a prompt: no
    conversion of the template throws, the prompt is the template filled
    by plain string operations, the handler sends one chat request with
    it, and so does a submission that passes the check of the page. *)
Theorem page_request_is_prompted
  (invoke : string -> FormData -> InvokeOutcome) (w : World) (f : FormData) :
  build_prompt (json_of_form f) = Ok (page_prompt f)
  /\ snd (handler w (post (json_of_form f))) = [chat_request w (page_prompt f)]
  /\ remote_calls w (handleSubmit invoke f)
     = if missing_information f then []
       else [chat_request w (page_prompt f)].
Proof.
  assert (Hsent : snd (handler w (post (json_of_form f)))
                  = [chat_request w (page_prompt f)]).
  { rewrite handler_unfold. unfold post.
    cbn [method req_json String.eqb Ascii.eqb Bool.eqb].
    rewrite build_prompt_of_form. reflexivity. }
  split; [apply build_prompt_of_form |]. split; [exact Hsent |].
  unfold remote_calls, handleSubmit, prediction_failed.
  destruct (missing_information f); [reflexivity |].
  destruct (invoke "predict-price" f) as [data [e |] | e];
    [| destruct (get data "prediction") |];
    cbn [app invocations flat_map]; rewrite Hsent; reflexivity.
Qed.

End Further.

(** Every submission shows one toast, invokes the edge function once at
    most and, when it invokes it, leaves the page not loading whatever
    the outcome; a prediction is set only beside the toast of success,
    and it is the [prediction] of data that came without an error. *)
Theorem handleSubmit_settles
  (invoke : string -> FormData -> InvokeOutcome) (f : FormData)
  (loading : bool) :
  let effects := handleSubmit invoke f in
  List.length (filter is_toast effects) = 1%nat
  /\ (List.length (invocations effects) <= 1)%nat
  /\ loading_after effects loading
     = (if missing_information f then loading else false)
  /\ forall prediction,
       In (SetPrediction prediction) effects ->
       In success_toast effects
       /\ exists data,
            invoke "predict-price" f = InvokeReturns data None
            /\ get data "prediction" = Ok prediction.
Proof.
  unfold handleSubmit, prediction_failed, success_toast.
  destruct (missing_information f);
    [| destruct (invoke "predict-price" f) as [data [e |] | e];
       [| destruct (get data "prediction") as [p0 | e] eqn:E |] ];
    cbn; repeat split; auto;
    try match goal with
        | H : _ \/ _ |- _ => solve [intuition discriminate]
        end.
  exists data. split; [reflexivity |].
  intuition (try discriminate). congruence.
Qed.

(** Unchecking an amenity removes it, every occurrence of it, and
    nothing else; a list without duplicates stays so, and unchecking an
    amenity that is not in the list changes nothing. *)
Theorem uncheck_removes_the_amenity (amenity : string) (prev : FormData) :
  let next := handleAmenityChange amenity false prev in
  ~ In amenity (amenities next)
  /\ (forall other, other <> amenity ->
        (In other (amenities next) <-> In other (amenities prev)))
  /\ (NoDup (amenities prev) -> NoDup (amenities next))
  /\ (~ In amenity (amenities prev) -> next = prev).
Proof.
  cbn. split; [| split; [| split]].
  - intros H. apply filter_In in H. destruct H as [_ H].
    rewrite String.eqb_refl in H. discriminate.
  - intros other Hother. rewrite filter_In. split; [tauto |].
    intros H. split; [assumption |].
    apply negb_true_iff, String.eqb_neq. assumption.
  - apply NoDup_filter.
  - intros Hnot. unfold handleAmenityChange.
    rewrite (PageFacts.filter_absent _ _ Hnot).
    apply PageFacts.with_amenities_same.
Qed.

(** Checking an amenity that is not in the list, as the checkbox of the
    page does, appends it and keeps the list without duplicates;
    unchecking it again gives the form back. *)
Theorem check_then_uncheck (amenity : string) (prev : FormData) :
  ~ In amenity (amenities prev) ->
  NoDup (amenities prev) ->
  let next := handleAmenityChange amenity true prev in
  amenities next = (amenities prev ++ [amenity])%list
  /\ NoDup (amenities next)
  /\ handleAmenityChange amenity false next = prev.
Proof.
  intros Hnot Hnodup. cbn. split; [reflexivity | split].
  - apply NoDup_app; [assumption | repeat constructor; intros [] |].
    intros a Ha [<- | []]. contradiction.
  - unfold handleAmenityChange, with_amenities. cbn [amenities propertyType
      bedrooms bathrooms area address city state zipcode yearBuilt
      parkingSpaces furnished petFriendly].
    rewrite filter_app, (PageFacts.filter_absent _ _ Hnot). cbn [filter].
    rewrite String.eqb_refl. cbn [negb]. rewrite app_nil_r.
    apply PageFacts.with_amenities_same.
Qed.

(** ** The further properties on the scenarios *)

Section FurtherOnScenarios.

Import Scenario ScenarioFacts Cases.


(** Two worlds with the same key, one answering 503 and one not
    answering at all, are sent the same chat request. *)
Lemma handler_sends_once_witness :
  snd (handler (world unavailable) (submit villa_in_miami))
  = snd (handler silent_world (submit villa_in_miami))
  /\ (List.length (snd (handler (world unavailable) (submit villa_in_miami)))
      <= 1)%nat.
Proof.
  apply (handler_sends_once (rt := engine)
           (world unavailable) silent_world (submit villa_in_miami)).
  reflexivity.
Defined.

(** Status 200 with the body of an error. *)
Lemma reply_without_message_is_rejected_witness :
  fst (handler (world no_choices) (submit villa_in_miami))
  = Failure invalid_response.
Proof.
  apply (reply_without_message_is_rejected (rt := engine)
           (world no_choices) (submit villa_in_miami)
           (sent (world no_choices) villa_in_miami) 200 "OK"
           (JObj [ ("error",
                     JObj [ ("message", JStr "Rate limit reached") ]) ])).
  - vm_compute. reflexivity.
  - reflexivity.
  - reflexivity.
  - eexists. split; [reflexivity |]. left. reflexivity.
Defined.

(** A villa of 0 sq ft passes the check of the page and ends in the
    error. *)
Lemma unreadable_area_is_rejected_witness :
  missing_information no_area = false
  /\ fst (handler (world (completion (JStr prose))) (submit no_area))
     = Failure invalid_structure.
Proof.
  split; [reflexivity |].
  apply (unreadable_area_is_rejected (rt := engine)
           (world (completion (JStr prose))) (submit no_area)
           (sent (world (completion (JStr prose))) no_area)
           (json_of_form no_area) (JStr prose) (JStr "0") (Num 0)
           "villa" "Miami").
  - reflexivity.
  - reflexivity.
  - vm_compute. reflexivity.
  - reflexivity.
  - reflexivity.
  - reflexivity.
  - vm_compute. reflexivity.
  - reflexivity.
  - intros prediction. vm_compute. discriminate.
Defined.

(** The villa of 2000 sq ft in Miami: 2000 x 400 x 18 / 10. *)
Lemma fallback_price_is_exact_witness :
  fallback_prediction (json_of_form villa_in_miami)
  = Ok (fallback_of (Num (inject_Z (Exact.price 2000 "villa" "Miami"))))
  /\ 10 * Exact.price 2000 "villa" "Miami"
     = 2000 * Exact.rate "villa" * Exact.multiplier_tenths "Miami".
Proof.
  apply (fallback_price_is_exact (rt := engine)
           (json_of_form villa_in_miami) 2000 "villa" "Miami").
  - split; [exists (JStr "2000"); split | |]; vm_compute; reflexivity.
  - unfold Exact.area_bound. lia.
  - reflexivity.
  - reflexivity.
Defined.

(** From 1000 to 2000 sq ft of villa in Miami the base price grows by
    200 000 at least. *)
Lemma base_price_grows_with_area_witness :
  exists k k',
    calculateBasePriceFromArea (Number.of_Z 1000) (JStr "Miami") (JStr "FL")
      (JStr "villa")
    = Ok (Num (inject_Z k))
    /\ calculateBasePriceFromArea (Number.of_Z 2000) (JStr "Miami")
         (JStr "FL") (JStr "villa")
       = Ok (Num (inject_Z k'))
    /\ 200 * (2000 - 1000) <= k' - k.
Proof.
  apply (base_price_grows_with_area (rt := engine)
           1000 2000 "villa" "Miami" (JStr "FL")).
  - unfold Exact.area_bound. lia.
  - lia.
  - unfold Exact.area_bound. lia.
  - reflexivity.
  - reflexivity.
Defined.

(** A base price of 350, whose [max] is the tie 402.5 in whole numbers. *)
Lemma derived_prices_are_nearest_integers_witness :
  exists lo hi c1 c2 c3,
    get (fallback_of (Num (inject_Z 350))) "priceRange"
    = Ok (JObj [ ("min", JNum (Num (inject_Z lo)));
                 ("max", JNum (Num (inject_Z hi))) ])
    /\ get (fallback_of (Num (inject_Z 350))) "comparableProperties"
       = Ok (JArr [ comparable (Num (inject_Z c1)) "0.5 miles" 92;
                    comparable (Num (inject_Z c2)) "0.8 miles" 88;
                    comparable (Num (inject_Z c3)) "1.2 miles" 85 ])
    /\ - 50 <= 100 * lo - 85 * 350 <= 50
    /\ - 50 <= 100 * hi - 115 * 350 <= 50
    /\ - 50 <= 100 * c1 - 95 * 350 <= 50
    /\ - 50 <= 100 * c2 - 108 * 350 <= 50
    /\ - 50 <= 100 * c3 - 92 * 350 <= 50.
Proof.
  apply (derived_prices_are_nearest_integers 350).
  unfold Exact.price_bound. lia.
Defined.

(** The base price of the villa in Miami. *)
Lemma comparables_lie_within_the_range_witness :
  exists lo c3 c1 c2 hi,
    scaled (Num (inject_Z 1440000)) (85 # 100) = Num (inject_Z lo)
    /\ scaled (Num (inject_Z 1440000)) (92 # 100) = Num (inject_Z c3)
    /\ scaled (Num (inject_Z 1440000)) (95 # 100) = Num (inject_Z c1)
    /\ scaled (Num (inject_Z 1440000)) (108 # 100) = Num (inject_Z c2)
    /\ scaled (Num (inject_Z 1440000)) (115 # 100) = Num (inject_Z hi)
    /\ lo < c3 < c1 /\ c1 < 1440000 < c2 /\ c2 < hi.
Proof.
  apply (comparables_lie_within_the_range 1440000).
  unfold price_ceiling. lia.
Defined.

(** A villa of -2000 sq ft passes the check of the page and is priced
    below zero. *)
Lemma negative_area_is_priced_witness :
  missing_information negative_area = false
  /\ exists k lo hi,
       fst (handler (world (completion (JStr prose))) (submit negative_area))
       = Success (fallback_of (Num (inject_Z k)))
       /\ k = Exact.price (-2000) "villa" "Miami"
       /\ k <= 200 * -2000
       /\ scaled (Num (inject_Z k)) (85 # 100) = Num (inject_Z lo)
       /\ scaled (Num (inject_Z k)) (115 # 100) = Num (inject_Z hi)
       /\ hi < k < lo
       /\ Estimate.well_formed (fallback_of (Num (inject_Z k))) = false.
Proof.
  split; [reflexivity |].
  apply (negative_area_is_priced (rt := engine)
           (world (completion (JStr prose))) (submit negative_area)
           (sent (world (completion (JStr prose))) negative_area)
           (json_of_form negative_area) (JStr prose)
           (-2000) "villa" "Miami").
  - reflexivity.
  - split; [exists (JStr "-2000"); split | |]; vm_compute; reflexivity.
  - lia.
  - reflexivity.
  - reflexivity.
  - vm_compute. reflexivity.
  - reflexivity.
  - intros prediction. vm_compute. discriminate.
Defined.

(** A villa of 2^1025 sq ft. *)
Lemma huge_area_is_answered_with_null_witness :
  status_of (fst (handler (world (completion (JStr prose)))
                    (submit huge_area)))
  = 200
  /\ received (fst (handler (world (completion (JStr prose)))
                      (submit huge_area)))
     = Some
         (JObj
            [ ("prediction",
                JObj
                  [ ("estimatedPrice", JNull);
                    ("priceRange",
                      JObj [ ("min", JNull); ("max", JNull) ]);
                    ("confidence", JNum (Num 75));
                    ("factors",
                      JObj [ ("location", JNum (Num 80));
                             ("size", JNum (Num 85));
                             ("bedrooms", JNum (Num 75));
                             ("bathrooms", JNum (Num 75));
                             ("amenities", JNum (Num 70));
                             ("market", JNum (Num 80)) ]);
                    ("comparableProperties",
                      JArr [ JObj [ ("price", JNull);
                                    ("distance", JStr "0.5 miles");
                                    ("similarity", JNum (Num 92)) ];
                             JObj [ ("price", JNull);
                                    ("distance", JStr "0.8 miles");
                                    ("similarity", JNum (Num 88)) ];
                             JObj [ ("price", JNull);
                                    ("distance", JStr "1.2 miles");
                                    ("similarity", JNum (Num 85)) ] ]) ]) ]).
Proof.
  apply (huge_area_is_answered_with_null (rt := engine)
           (world (completion (JStr prose))) (submit huge_area)
           (sent (world (completion (JStr prose))) huge_area)
           (json_of_form huge_area) (JStr prose)
           (2 ^ 1025) "villa" "Miami").
  - reflexivity.
  - split; [exists (JStr (Str.of_Z (2 ^ 1025))); split | |];
      vm_compute; reflexivity.
  - lia.
  - reflexivity.
  - reflexivity.
  - vm_compute. reflexivity.
  - reflexivity.
  - intros prediction. vm_compute. discriminate.
Defined.

(** The world without a key, on the villa. *)
Lemma missing_key_is_not_checked_witness :
  exists sent,
    snd (handler other_world (submit villa_in_miami)) = [sent]
    /\ url sent = "https://api.openai.com/v1/chat/completions"
    /\ authorization sent = "Bearer undefined"
    /\ messages sent
       = [ {| role := "system"; content := system_instruction |};
           {| role := "user"; content := page_prompt villa_in_miami |} ]
    /\ fst (handler other_world (submit villa_in_miami))
       = respond (after_fetch (json_of_form villa_in_miami)
                    (fetch other_world sent)).
Proof.
  apply (missing_key_is_not_checked (rt := engine)
           other_world (submit villa_in_miami) (json_of_form villa_in_miami)
           (page_prompt villa_in_miami)).
  - reflexivity.
  - reflexivity.
  - reflexivity.
  - vm_compute. reflexivity.
Defined.

(** The area input of the page takes [1e3] for a number: it is read as
    1 sq ft. *)
Lemma parseInt_reads_leading_integer_witness :
  parseInt (rt := engine) (JStr (Str.of_Z 1 ++ "e3")) = Ok (Number.of_Z 1).
Proof.
  apply (parseInt_reads_leading_integer (rt := engine) 1 "e3").
  - reflexivity.
  - intros H. discriminate H.
Defined.

Lemma integer_area_round_trip_witness :
  parseInt (rt := engine) (JNum (Number.of_Z 1200)) = Ok (Number.of_Z 1200)
  /\ parseInt (rt := engine) (JStr (Str.of_Z 1200)) = Ok (Number.of_Z 1200).
Proof.
  apply (integer_area_round_trip (rt := engine) 1200).
  unfold safe_integer. lia.
Defined.

(** The villa with three bedrooms in Florida and the same villa with
    five in Texas. *)
Lemma fallback_reads_three_fields_witness :
  fallback_prediction (rt := engine)
    (JObj [ ("propertyType", JStr "villa"); ("bedrooms", JStr "3");
            ("area", JStr "2000"); ("city", JStr "Miami");
            ("state", JStr "FL") ])
  = fallback_prediction (rt := engine)
      (JObj [ ("area", JStr "2000"); ("city", JStr "Miami");
              ("state", JStr "TX"); ("bedrooms", JStr "5");
              ("propertyType", JStr "villa") ]).
Proof.
  apply (fallback_reads_three_fields (rt := engine)); reflexivity.
Defined.

(** The villa has a gym and a garden; a parking is checked, then
    unchecked. *)
Lemma check_then_uncheck_witness :
  amenities (handleAmenityChange "Parking" true villa_in_miami)
  = [ "Gym"; "Garden"; "Parking" ]
  /\ NoDup (amenities (handleAmenityChange "Parking" true villa_in_miami))
  /\ handleAmenityChange "Parking" false
       (handleAmenityChange "Parking" true villa_in_miami)
     = villa_in_miami.
Proof.
  apply (check_then_uncheck "Parking" villa_in_miami).
  - cbn. intros [H | [H | []]]; discriminate H.
  - cbn. repeat constructor; cbn; intuition discriminate.
Defined.

End FurtherOnScenarios.
